(** * Payment adapter layer of the NP Beauty backend (server.js, payments.js)

    A shallow embedding of the two source files and of the parts of the
    JavaScript run time they rely on, followed by the properties of the
    payment handlers.

    Conventions of the embedding.
    - A JavaScript Number is an IEEE 754 binary64 value, here the
      [spec_float] of the standard library with [prec = 53] and
      [emax = 1024].
    - A JavaScript String is the sequence of its UTF-8 bytes (well-formed
      strings only), which is also what [crypto] hashes.
    - Values are the JSON-shaped values a parsed request body, a provider
      reply or a rejection reason can hold.  An object lists its own
      properties in enumeration order, each key once; no object carries a
      callable property, and an [Error] is the object of its message.
    - [req.body] is whatever the body parsers left there; a handler that
      destructures [undefined] or [null] throws, as in the source.  (The
      parsers registered in server.js leave an object there.)
    - An outbound provider call is an event appended to a trace; what the
      provider answers is given by the world the handler runs in, and so
      is what [express.static] finds on disk.
    - The clients of the gateways are built when payments.js is loaded,
      by constructors of the packages; a process whose load throws serves
      no request.
    - [console.log], [console.warn] and [console.error] produce no event;
      only the evaluation of their arguments is kept, since it can throw. *)

From Stdlib Require Import ZArith QArith Qround List String Ascii Bool Lia.
From Stdlib Require Import DecimalString.
From Stdlib Require Import Floats.SpecFloat.
Import ListNotations.

Local Open Scope string_scope.
Local Open Scope Z_scope.

(** The bytes of a string, and back. *)
Definition bytes_of_string (s : string) : list Z :=
  map (fun c => Z.of_N (N_of_ascii c)) (list_ascii_of_string s).

Definition string_of_bytes (l : list Z) : string :=
  string_of_list_ascii (map (fun b => ascii_of_N (Z.to_N b)) l).

(* ================================================================== *)
(** * JavaScript Numbers *)
(* ================================================================== *)

Module JsNumber.

Definition number : Type := spec_float.

Definition prec : Z := 53.
Definition emax : Z := 1024.

Definition NaN : number := S754_nan.
Definition zero : number := S754_zero false.
Definition Infinity : number := S754_infinity false.

(** An integer as a Number, correctly rounded (exact below 2^53). *)
Definition of_Z (z : Z) : number := binary_normalize prec emax z 0 false.

(** The Number of an integer, built digit for digit: with at most 53 bits
    the mantissa is shifted to 53 bits, which is the canonical form, and
    nothing is rounded.  (A wider integer is kept as it is; [Math_round]
    below never produces one from a Number in canonical form.) *)
Definition of_int (z : Z) : number :=
  match z with
  | Z0 => S754_zero false
  | _ =>
      let k := Z.max 0 (prec - Z.log2 (Z.abs z) - 1) in
      S754_finite (z <? 0) (Z.to_pos (Z.abs z * 2 ^ k)) (- k)
  end.

Definition isNaN (x : number) : bool :=
  match x with S754_nan => true | _ => false end.

Definition is_finite (x : number) : bool :=
  match x with S754_zero _ | S754_finite _ _ _ => true | _ => false end.

Definition mul : number -> number -> number := SFmul prec emax.
Definition leb : number -> number -> bool := SFleb.
Definition ltb : number -> number -> bool := SFltb.

(** The exact rational value of a finite Number. *)
Definition to_Q (x : number) : Q :=
  match x with
  | S754_finite s m e =>
      match e with
      | Zneg p => Qmake (cond_Zopp s (Zpos m)) (2 ^ p)%positive
      | _ => inject_Z (cond_Zopp s (Zpos m) * 2 ^ e)
      end
  | _ => 0%Q
  end.

(** [Math.round]: a Number that is not finite or is integral is returned
    as it is; otherwise the closest integer, the one towards +Infinity on
    a tie, with -0 for the values of [-0.5, 0). *)
Definition round_half_up (x : number) : Z :=
  match x with
  | S754_finite s m (Zneg p) =>
      (2 * cond_Zopp s (Zpos m) + Zpos (2 ^ p)) / (2 * Zpos (2 ^ p))
  | S754_finite s m e => cond_Zopp s (Zpos m) * 2 ^ e
  | _ => 0
  end.

Definition Math_round (x : number) : number :=
  match x with
  | S754_finite s m (Zneg p) =>
      let r := round_half_up x in
      if r =? 0 then S754_zero s else of_int r
  | _ => x
  end.

(** ** Number::toString, radix 10 *)

Definition string_of_Z (z : Z) : string :=
  NilZero.string_of_int (Z.to_int z).

Definition pow10 (n : Z) : Q :=
  match n with
  | Zneg p => Qmake 1 (10 ^ p)%positive
  | _ => inject_Z (10 ^ n)
  end.

(** The least [n], counted up from [n], with [x < 10^n]. *)
Fixpoint decimal_exponent (fuel : nat) (n : Z) (x : Q) : Z :=
  match fuel with
  | O => n
  | S fuel' =>
      if Qle_bool (pow10 n) x then decimal_exponent fuel' (n + 1) x else n
  end.

(** A start for [decimal_exponent] below the decimal exponent of
    [m * 2^e], from the binary one ([log10 2] is about [0.30103]). *)
Definition decimal_exponent_start (m : positive) (e : Z) : Z :=
  (Zpos (digits2_pos m) + e - 1) * 30103 / 100000 - 2.

Definition Qlt_bool (a b : Q) : bool := negb (Qle_bool b a).

(** The interval of the reals that round to the positive finite Number
    [m * 2^e]: its two ends and whether they belong to it (they do when
    the mantissa is even). *)
Definition rounding_interval (m : positive) (e : Z) : Q * Q * bool :=
  let x := to_Q (S754_finite false m e) in
  let ulp := to_Q (S754_finite false 1 e) in
  let below :=
    if (Zpos m =? 2 ^ (prec - 1)) && (3 - emax - prec <? e)
    then (ulp / 4)%Q else (ulp / 2)%Q in
  ((x - below)%Q, (x + ulp / 2)%Q, Z.even (Zpos m)).

Definition in_interval (i : Q * Q * bool) (v : Q) : bool :=
  let '(lo, hi, closed) := i in
  if closed then Qle_bool lo v && Qle_bool v hi
  else Qlt_bool lo v && Qlt_bool v hi.

(** The digits [s] and the exponent [n] of the shortest decimal
    [s * 10^(n-k)], [10^(k-1) <= s < 10^k], that rounds to [m * 2^e];
    [k] is tried from [k] upwards. *)
Fixpoint shortest_decimal (fuel : nat) (k : Z) (m : positive) (e : Z)
  (n0 : Z) : Z * Z :=
  let x := to_Q (S754_finite false m e) in
  let i := rounding_interval m e in
  let scale := pow10 (n0 - k) in
  let lo := Qfloor (x / scale) in
  let hi := lo + 1 in
  let norm s := if s =? 10 ^ k then (10 ^ (k - 1), n0 + 1) else (s, n0) in
  let in_lo := in_interval i (inject_Z lo * scale) in
  let in_hi := in_interval i (inject_Z hi * scale) in
  let d_lo := (x - inject_Z lo * scale)%Q in
  let d_hi := (inject_Z hi * scale - x)%Q in
  match fuel with
  | O => (lo, n0)
  | S fuel' =>
      if in_lo && in_hi then
        if Qlt_bool d_lo d_hi then norm lo
        else if Qlt_bool d_hi d_lo then norm hi
        else if Z.even (fst (norm lo)) then norm lo else norm hi
      else if in_lo then norm lo
      else if in_hi then norm hi
      else shortest_decimal fuel' (k + 1) m e n0
  end.

Fixpoint zeros (n : nat) : string :=
  match n with O => "" | S n' => String "0" (zeros n') end.

Definition exponent_suffix (n : Z) : string :=
  "e" ++ (if 0 <=? n - 1 then "+" else "-") ++ string_of_Z (Z.abs (n - 1)).

Definition format_decimal (s n : Z) : string :=
  let digits := string_of_Z s in
  let k := Z.of_nat (String.length digits) in
  if (k <=? n) && (n <=? 21) then
    digits ++ zeros (Z.to_nat (n - k))
  else if (0 <? n) && (n <=? 21) then
    substring 0 (Z.to_nat n) digits ++ "."
      ++ substring (Z.to_nat n) (Z.to_nat (k - n)) digits
  else if (-6 <? n) && (n <=? 0) then
    "0." ++ zeros (Z.to_nat (- n)) ++ digits
  else if k =? 1 then
    digits ++ exponent_suffix n
  else
    substring 0 1 digits ++ "." ++ substring 1 (Z.to_nat (k - 1)) digits
      ++ exponent_suffix n.

Definition toString (x : number) : string :=
  match x with
  | S754_nan => "NaN"
  | S754_zero _ => "0"
  | S754_infinity s => if s then "-Infinity" else "Infinity"
  | S754_finite s m e =>
      let n0 :=
        decimal_exponent 8 (decimal_exponent_start m e)
          (to_Q (S754_finite false m e)) in
      let '(d, n) := shortest_decimal 25 1 m e n0 in
      (if s then "-" else "") ++ format_decimal d n
  end.

(** ** StringToNumber

    The string is given by its bytes.  White space and line terminators
    are trimmed at both ends; what is left is empty (+0), a decimal
    literal with an optional sign, [Infinity] with an optional sign, or an
    unsigned binary, octal or hexadecimal integer literal; anything else
    is NaN.  The value is rounded to the nearest Number, ties to even. *)

(** The number of bytes of the white space character [l] starts with. *)
Definition leading_space (l : list Z) : nat :=
  match l with
  | 9 :: _ | 10 :: _ | 11 :: _ | 12 :: _ | 13 :: _ | 32 :: _ => 1%nat
  | 194 :: 160 :: _ => 2%nat
  | 225 :: 154 :: 128 :: _ => 3%nat
  | 226 :: 128 :: c :: _ =>
      if ((128 <=? c) && (c <=? 138)) || (c =? 168) || (c =? 169)
         || (c =? 175)
      then 3%nat else 0%nat
  | 226 :: 129 :: 159 :: _ => 3%nat
  | 227 :: 128 :: 128 :: _ => 3%nat
  | 239 :: 187 :: 191 :: _ => 3%nat
  | _ => 0%nat
  end.

(** The same for the white space character the reversed [l] ends with. *)
Definition trailing_space (l : list Z) : nat :=
  match l with
  | 9 :: _ | 10 :: _ | 11 :: _ | 12 :: _ | 13 :: _ | 32 :: _ => 1%nat
  | 160 :: 194 :: _ => 2%nat
  | 128 :: 154 :: 225 :: _ => 3%nat
  | c :: 128 :: 226 :: _ =>
      if ((128 <=? c) && (c <=? 138)) || (c =? 168) || (c =? 169)
         || (c =? 175)
      then 3%nat else 0%nat
  | 159 :: 129 :: 226 :: _ => 3%nat
  | 128 :: 128 :: 227 :: _ => 3%nat
  | 191 :: 187 :: 239 :: _ => 3%nat
  | _ => 0%nat
  end.

Fixpoint strip (space : list Z -> nat) (fuel : nat) (l : list Z) : list Z :=
  match fuel with
  | O => l
  | S fuel' =>
      match space l with
      | O => l
      | n => strip space fuel' (skipn n l)
      end
  end.

Definition trim (l : list Z) : list Z :=
  let l1 := strip leading_space (List.length l) l in
  rev (strip trailing_space (List.length l1) (rev l1)).

Definition digit_of (radix c : Z) : option Z :=
  let d :=
    if (48 <=? c) && (c <=? 57) then c - 48
    else if (97 <=? c) && (c <=? 122) then c - 87
    else if (65 <=? c) && (c <=? 90) then c - 55
    else radix in
  if d <? radix then Some d else None.

(** The longest prefix of digits, as digit values, and what follows. *)
Fixpoint take_digits (radix : Z) (l : list Z) : list Z * list Z :=
  match l with
  | [] => ([], [])
  | c :: r =>
      match digit_of radix c with
      | Some d => let '(ds, rest) := take_digits radix r in (d :: ds, rest)
      | None => ([], l)
      end
  end.

Definition digits_value (radix : Z) (ds : list Z) : Z :=
  fold_left (fun a d => radix * a + d) ds 0.

(** The Number nearest to [N / D], for [N] and [D] positive: the quotient
    is taken with at least 69 bits and one more bit records whether
    anything is left, so one rounding to nearest even finishes. *)
Definition round_rational (s : bool) (N D : Z) : number :=
  let sh := Z.max 0 (Z.log2 D - Z.log2 N + 70) in
  let q := N * 2 ^ sh / D in
  let sticky := if N * 2 ^ sh mod D =? 0 then 0 else 1 in
  match 2 * q + sticky with
  | Zpos m => binary_round prec emax s m (- sh - 1)
  | _ => S754_zero s
  end.

(** [M * 10^E], with [nd] an upper bound of the number of digits of [M]. *)
Definition decimal_value (s : bool) (M E : Z) (nd : Z) : number :=
  if M =? 0 then S754_zero s
  else if 310 <? E then S754_infinity s
  else if nd + E <? -330 then S754_zero s
  else if 0 <=? E then round_rational s (M * 10 ^ E) 1
  else round_rational s M (10 ^ (- E)).

(** The exponent part: nothing, or [e] or [E], an optional sign and at
    least one digit, up to the end of the literal. *)
Definition exponent_part (l : list Z) : option Z :=
  match l with
  | [] => Some 0
  | c :: r =>
      if (c =? 101) || (c =? 69) then
        let '(neg, r1) :=
          match r with
          | 43 :: r' => (false, r')
          | 45 :: r' => (true, r')
          | _ => (false, r)
          end in
        match take_digits 10 r1 with
        | ((_ :: _) as ds, []) =>
            Some (if neg then - digits_value 10 ds else digits_value 10 ds)
        | _ => None
        end
      else None
  end.

Definition Infinity_bytes : list Z := bytes_of_string "Infinity".

Definition list_Z_eqb (a b : list Z) : bool :=
  if list_eq_dec Z.eq_dec a b then true else false.

Definition StrDecimalLiteral (l : list Z) : number :=
  let '(s, l1) :=
    match l with
    | 43 :: r => (false, r)
    | 45 :: r => (true, r)
    | _ => (false, l)
    end in
  if list_Z_eqb l1 Infinity_bytes then S754_infinity s
  else
    let '(ip, l2) := take_digits 10 l1 in
    let '(fp, l3) :=
      match l2 with
      | 46 :: r => take_digits 10 r
      | _ => ([], l2)
      end in
    match (ip ++ fp)%list with
    | [] => S754_nan
    | ds =>
        match exponent_part l3 with
        | Some ex =>
            decimal_value s (digits_value 10 ds)
              (ex - Z.of_nat (List.length fp)) (Z.of_nat (List.length ds))
        | None => S754_nan
        end
    end.

Definition NonDecimalIntegerLiteral (radix : Z) (l : list Z) : number :=
  match take_digits radix l with
  | ((_ :: _) as ds, []) => of_Z (digits_value radix ds)
  | _ => S754_nan
  end.

Definition StringToNumber (str : string) : number :=
  match trim (bytes_of_string str) with
  | [] => S754_zero false
  | 48 :: 120 :: r | 48 :: 88 :: r => NonDecimalIntegerLiteral 16 r
  | 48 :: 111 :: r | 48 :: 79 :: r => NonDecimalIntegerLiteral 8 r
  | 48 :: 98 :: r | 48 :: 66 :: r => NonDecimalIntegerLiteral 2 r
  | l => StrDecimalLiteral l
  end.

End JsNumber.

(* ================================================================== *)
(** * The [crypto] and [Buffer] primitives the handlers use *)
(* ================================================================== *)

Module Crypto.

(** ** SHA-256 (FIPS 180-4) on 32-bit words kept in [Z] *)

Definition w32 (x : Z) : Z := x mod 2 ^ 32.
Definition add32 (x y : Z) : Z := w32 (x + y).
Definition rotr (n x : Z) : Z :=
  Z.lor (Z.shiftr x n) (w32 (Z.shiftl x (32 - n))).

Definition Ch (x y z : Z) : Z :=
  Z.lxor (Z.land x y) (Z.land (Z.lnot x) z).
Definition Maj (x y z : Z) : Z :=
  Z.lxor (Z.lxor (Z.land x y) (Z.land x z)) (Z.land y z).
Definition Sigma0 (x : Z) : Z :=
  Z.lxor (Z.lxor (rotr 2 x) (rotr 13 x)) (rotr 22 x).
Definition Sigma1 (x : Z) : Z :=
  Z.lxor (Z.lxor (rotr 6 x) (rotr 11 x)) (rotr 25 x).
Definition sigma0 (x : Z) : Z :=
  Z.lxor (Z.lxor (rotr 7 x) (rotr 18 x)) (Z.shiftr x 3).
Definition sigma1 (x : Z) : Z :=
  Z.lxor (Z.lxor (rotr 17 x) (rotr 19 x)) (Z.shiftr x 10).

Definition K256 : list Z :=
  [
   1116352408; 1899447441; 3049323471; 3921009573;
   961987163; 1508970993; 2453635748; 2870763221;
   3624381080; 310598401; 607225278; 1426881987;
   1925078388; 2162078206; 2614888103; 3248222580;
   3835390401; 4022224774; 264347078; 604807628;
   770255983; 1249150122; 1555081692; 1996064986;
   2554220882; 2821834349; 2952996808; 3210313671;
   3336571891; 3584528711; 113926993; 338241895;
   666307205; 773529912; 1294757372; 1396182291;
   1695183700; 1986661051; 2177026350; 2456956037;
   2730485921; 2820302411; 3259730800; 3345764771;
   3516065817; 3600352804; 4094571909; 275423344;
   430227734; 506948616; 659060556; 883997877;
   958139571; 1322822218; 1537002063; 1747873779;
   1955562222; 2024104815; 2227730452; 2361852424;
   2428436474; 2756734187; 3204031479; 3329325298 ].

Record registers : Type :=
  Registers { ra : Z; rb : Z; rc : Z; rd : Z; re : Z; rf : Z; rg : Z; rh : Z }.

Definition H0 : registers :=
  Registers 1779033703 3144134277 1013904242 2773480762
            1359893119 2600822924 528734635 1541459225.

(** The message: the bytes, the byte 0x80, zero bytes up to 56 modulo 64
    and the length in bits on eight bytes, big end first. *)
Definition be_bytes (n : nat) (x : Z) : list Z :=
  map (fun i => Z.shiftr x (8 * Z.of_nat i) mod 256) (rev (seq 0 n)).

Definition pad (msg : list Z) : list Z :=
  let len := Z.of_nat (List.length msg) in
  let fill := Z.to_nat ((55 - len) mod 64) in
  (msg ++ 128 :: repeat 0 fill ++ be_bytes 8 (8 * len))%list.

Fixpoint be_words (fuel : nat) (l : list Z) : list Z :=
  match fuel, l with
  | S fuel', b3 :: b2 :: b1 :: b0 :: r =>
      (((b3 * 256 + b2) * 256 + b1) * 256 + b0) :: be_words fuel' r
  | _, _ => []
  end.

(** The schedule: sixteen words of the block, then 48 computed ones. *)
Fixpoint schedule (n : nat) (w : list Z) : list Z :=
  match n with
  | O => w
  | S n' =>
      let t := List.length w in
      let at_ i := nth (t - i) w 0 in
      schedule n'
        (w ++ [add32 (add32 (sigma1 (at_ 2%nat)) (at_ 7%nat))
                     (add32 (sigma0 (at_ 15%nat)) (at_ 16%nat))])%list
  end.

Definition round (r : registers) (kw : Z * Z) : registers :=
  let '(k, w) := kw in
  let t1 :=
    add32 (add32 (add32 (rh r) (Sigma1 (re r))) (Ch (re r) (rf r) (rg r)))
          (add32 k w) in
  let t2 := add32 (Sigma0 (ra r)) (Maj (ra r) (rb r) (rc r)) in
  Registers (add32 t1 t2) (ra r) (rb r) (rc r)
            (add32 (rd r) t1) (re r) (rf r) (rg r).

Definition compress (h : registers) (block : list Z) : registers :=
  let w := schedule 48 (be_words 16 block) in
  let r := fold_left round (combine K256 w) h in
  Registers (add32 (ra h) (ra r)) (add32 (rb h) (rb r))
            (add32 (rc h) (rc r)) (add32 (rd h) (rd r))
            (add32 (re h) (re r)) (add32 (rf h) (rf r))
            (add32 (rg h) (rg r)) (add32 (rh h) (rh r)).

Fixpoint blocks (fuel : nat) (h : registers) (l : list Z) : registers :=
  match fuel, l with
  | S fuel', _ :: _ => blocks fuel' (compress h (firstn 64 l)) (skipn 64 l)
  | _, _ => h
  end.

Definition sha256 (msg : list Z) : list Z :=
  let p := pad msg in
  let r := blocks (List.length p) H0 p in
  flat_map (be_bytes 4)
    [ra r; rb r; rc r; rd r; re r; rf r; rg r; rh r].

(** ** HMAC (RFC 2104) with SHA-256, block size 64 *)

Definition hmac_sha256 (key msg : list Z) : list Z :=
  let k := if (64 <? Z.of_nat (List.length key)) then sha256 key else key in
  let k' := (k ++ repeat 0 (64 - List.length k))%list in
  let inner := sha256 (map (Z.lxor 54) k' ++ msg)%list in
  sha256 (map (Z.lxor 92) k' ++ inner)%list.

(** ** [digest('hex')]: two lower-case digits per byte *)

Definition hex_digit (d : Z) : ascii :=
  ascii_of_N (Z.to_N (if d <? 10 then 48 + d else 87 + d)).

Fixpoint hex (l : list Z) : string :=
  match l with
  | [] => ""
  | b :: r => String (hex_digit (b / 16)) (String (hex_digit (b mod 16)) (hex r))
  end.

(** [crypto.createHmac('sha256', key).update(data).digest('hex')] *)
Definition createHmac_sha256_hex (key data : string) : string :=
  hex (hmac_sha256 (bytes_of_string key) (bytes_of_string data)).

(** ** [Buffer.from(s).toString('base64')] *)

Definition base64_char (d : Z) : ascii :=
  ascii_of_N (Z.to_N
    (if d <? 26 then 65 + d
     else if d <? 52 then 71 + d
     else if d <? 62 then d - 4
     else if d =? 62 then 43 else 47)).

Fixpoint base64_bytes (fuel : nat) (l : list Z) : string :=
  match fuel, l with
  | S fuel', a :: b :: c :: r =>
      String (base64_char (a / 4))
     (String (base64_char ((a mod 4) * 16 + b / 16))
     (String (base64_char ((b mod 16) * 4 + c / 64))
     (String (base64_char (c mod 64)) (base64_bytes fuel' r))))
  | S _, [a; b] =>
      String (base64_char (a / 4))
     (String (base64_char ((a mod 4) * 16 + b / 16))
     (String (base64_char ((b mod 16) * 4)) "="))
  | S _, [a] =>
      String (base64_char (a / 4))
     (String (base64_char ((a mod 4) * 16)) "==")
  | _, _ => ""
  end.

Definition base64 (s : string) : string :=
  let l := bytes_of_string s in base64_bytes (S (List.length l)) l.

End Crypto.

(* ================================================================== *)
(** * JavaScript values and the conversions the handlers apply *)
(* ================================================================== *)

Module Js.

Import JsNumber.

#[local] Unset Elimination Schemes.

Inductive value : Type :=
  | VUndefined
  | VNull
  | VBool (b : bool)
  | VNum (n : number)
  | VStr (s : string)
  | VArr (elems : list value)
  | VObj (props : list (string * value)).

#[local] Set Elimination Schemes.

(** The outcome of evaluating an expression: a result, or a thrown value. *)
Inductive completion (A : Type) : Type :=
  | Normal (a : A)
  | Throw (e : value).

Arguments Normal {A} a.
Arguments Throw {A} e.

Definition bind {A B : Type} (c : completion A) (k : A -> completion B)
  : completion B :=
  match c with
  | Normal a => k a
  | Throw e => Throw e
  end.

Notation "'let!' x ':=' c 'in' k" := (bind c (fun x => k))
  (at level 10, x name, c at level 100, k at level 200).

(** An [Error] instance, by the one property of it the program reads. *)
Definition Error (message : string) : value :=
  VObj [("message", VStr message)].

(** The TypeErrors of the run time; the texts are V8's. *)
Definition TypeError_not_coercible (k : string) (v : value) : value :=
  Error ("Cannot read properties of "
         ++ (match v with VNull => "null" | _ => "undefined" end)
         ++ " (reading '" ++ k ++ "')").
Definition TypeError_destructure (k source : string) (v : value) : value :=
  Error ("Cannot destructure property '" ++ k ++ "' of '" ++ source
         ++ "' as it is "
         ++ (match v with VNull => "null" | _ => "undefined" end) ++ ".").
Definition TypeError_to_primitive : value :=
  Error "Cannot convert object to primitive value".
Definition TypeError_not_a_function (what : string) : value :=
  Error (what ++ " is not a function").

(** ** Truthiness, [||], [===] *)

Definition ToBoolean (v : value) : bool :=
  match v with
  | VUndefined | VNull => false
  | VBool b => b
  | VNum (S754_zero _) | VNum S754_nan => false
  | VNum _ => true
  | VStr s => negb (String.eqb s "")
  | VArr _ | VObj _ => true
  end.

Definition or_else (a b : value) : value := if ToBoolean a then a else b.

(** [s === v] for a string [s]. *)
Definition strict_equal_string (s : string) (v : value) : bool :=
  match v with
  | VStr s' => String.eqb s s'
  | _ => false
  end.

Definition isArray (v : value) : bool :=
  match v with VArr _ => true | _ => false end.

(** ** Property access

    The own property of an object, for the property names the program
    reads ([amount], [name], [data], ...): none of them is a property of
    [Object.prototype], of [Array.prototype] or of a primitive wrapper, so
    anything but an object answers [undefined]. *)

Fixpoint lookup (k : string) (props : list (string * value)) : value :=
  match props with
  | [] => VUndefined
  | (k', v) :: r => if String.eqb k k' then v else lookup k r
  end.

Definition has_own (k : string) (props : list (string * value)) : bool :=
  existsb (fun kv => String.eqb k (fst kv)) props.

(** [v.k]: a TypeError on [undefined] and [null]. *)
Definition get (v : value) (k : string) : completion value :=
  match v with
  | VUndefined | VNull => Throw (TypeError_not_coercible k v)
  | VObj props => Normal (lookup k props)
  | _ => Normal VUndefined
  end.

(** [const { k, ... } = req.body]: the pattern reads the properties as [get]
    does, and on [undefined] and [null] it throws the TypeError of a
    pattern, which names [k], the first property of the pattern.  (The
    properties after the first are read with [get]: they are reached only
    when the first was read.) *)
Definition destructure (v : value) (k : string) : completion value :=
  match get v k with
  | Normal a => Normal a
  | Throw _ => Throw (TypeError_destructure k "req.body" v)
  end.

(** [v?.k] *)
Definition get_opt (v : value) (k : string) : value :=
  match v with
  | VObj props => lookup k props
  | _ => VUndefined
  end.

(** A default in a destructuring pattern applies to [undefined] only. *)
Definition default_to (d v : value) : value :=
  match v with VUndefined => d | _ => v end.

(** ** ToString, ToPrimitive, ToNumber

    An object is converted by [Object.prototype.toString] and an array by
    [Array.prototype.join], the methods they inherit.  An own property
    [toString] hides the inherited method and is not callable, in which
    case [valueOf] is tried, which does not give a primitive either: a
    TypeError.  Both hints of ToPrimitive therefore end the same way. *)

Fixpoint ToString (v : value) {struct v} : completion string :=
  match v with
  | VUndefined => Normal "undefined"
  | VNull => Normal "null"
  | VBool b => Normal (if b then "true" else "false")
  | VNum n => Normal (toString n)
  | VStr s => Normal s
  | VArr elems =>
      (fix join (l : list value) : completion string :=
         match l with
         | [] => Normal ""
         | x :: r =>
             let! sx :=
               match x with
               | VUndefined | VNull => Normal ""
               | _ => ToString x
               end in
             match r with
             | [] => Normal sx
             | _ => let! sr := join r in Normal (sx ++ "," ++ sr)
             end
         end) elems
  | VObj props =>
      if has_own "toString" props then Throw TypeError_to_primitive
      else Normal "[object Object]"
  end.

(** [elems.join(sep)] *)
Fixpoint Array_join (sep : string) (elems : list value) : completion string :=
  match elems with
  | [] => Normal ""
  | x :: r =>
      let! sx :=
        match x with
        | VUndefined | VNull => Normal ""
        | _ => ToString x
        end in
      match r with
      | [] => Normal sx
      | _ => let! sr := Array_join sep r in Normal (sx ++ sep ++ sr)
      end
  end.

Definition ToPrimitive (v : value) : completion value :=
  match v with
  | VArr _ | VObj _ => let! s := ToString v in Normal (VStr s)
  | _ => Normal v
  end.

Definition ToNumber (v : value) : completion number :=
  let! p := ToPrimitive v in
  Normal
    match p with
    | VUndefined => NaN
    | VNull => zero
    | VBool b => if b then of_int 1 else zero
    | VNum n => n
    | VStr s => StringToNumber s
    | _ => NaN
    end.

(** The globals [isNaN], [Number] and [String] on a value. *)
Definition global_isNaN (v : value) : completion bool :=
  let! n := ToNumber v in Normal (isNaN n).
Definition Number (v : value) : completion number := ToNumber v.
Definition String_ (v : value) : completion string := ToString v.

(** ** [JSON.stringify] *)

Definition dquote : string := String (ascii_of_N 34) "".

Definition json_escape (c : ascii) : string :=
  let n := Z.of_N (N_of_ascii c) in
  if n =? 8 then "\b" else if n =? 9 then "\t" else if n =? 10 then "\n"
  else if n =? 12 then "\f" else if n =? 13 then "\r"
  else if n =? 34 then "\" ++ dquote
  else if n =? 92 then "\\"
  else if n <? 32 then "\u00" ++ Crypto.hex [n]
  else String c "".

Fixpoint json_escape_all (s : string) : string :=
  match s with
  | EmptyString => ""
  | String c r => json_escape c ++ json_escape_all r
  end.

Definition QuoteJSONString (s : string) : string :=
  dquote ++ json_escape_all s ++ dquote.

Fixpoint comma_separated (l : list string) : string :=
  match l with
  | [] => ""
  | [s] => s
  | s :: r => s ++ "," ++ comma_separated r
  end.

(** The text of a value; [None] stands for [undefined], which an object
    leaves out and an array writes as [null]. *)
Fixpoint SerializeJSON (v : value) {struct v} : option string :=
  match v with
  | VUndefined => None
  | VNull => Some "null"
  | VBool b => Some (if b then "true" else "false")
  | VNum n => Some (if is_finite n then toString n else "null")
  | VStr s => Some (QuoteJSONString s)
  | VArr elems =>
      Some ("[" ++ comma_separated
              ((fix items (l : list value) : list string :=
                  match l with
                  | [] => []
                  | x :: r =>
                      match SerializeJSON x with
                      | Some s => s
                      | None => "null"
                      end :: items r
                  end) elems) ++ "]")
  | VObj props =>
      Some ("{" ++ comma_separated
              ((fix members (l : list (string * value)) : list string :=
                  match l with
                  | [] => []
                  | (k, x) :: r =>
                      match SerializeJSON x with
                      | Some s => (QuoteJSONString k ++ ":" ++ s) :: members r
                      | None => members r
                      end
                  end) props) ++ "}")
  end.

Definition JSON_stringify (v : value) : value :=
  match SerializeJSON v with
  | Some s => VStr s
  | None => VUndefined
  end.

End Js.

(* ================================================================== *)
(** * payments.js *)
(* ================================================================== *)

Module Payments.

Import JsNumber Js Crypto.

(** ** The request and the response *)

Record request : Type := Request {
  method : string;
  path : string;
  headers : list (string * string);
  body : value
}.

Inductive payload : Type :=
  | Json (v : value)
  | File (name : string)
  | NoContent
  | ErrorPage.

Record response : Type := Response {
  status : Z;
  sent : payload
}.

(** [res.json(v)] and [res.status(code).json(v)] *)
Definition res_json (v : value) : response := Response 200 (Json v).
Definition res_status_json (code : Z) (v : value) : response :=
  Response code (Json v).

(** [req.headers.origin] *)
Fixpoint header (name : string) (hs : list (string * string)) : value :=
  match hs with
  | [] => VUndefined
  | (k, v) :: r => if String.eqb name k then VStr v else header name r
  end.

(** ** Outbound calls, the world, and the handlers' effects *)

(** The calls a handler makes to a provider, with their arguments. *)
Inductive call : Type :=
  | razorpay_orders_create (options : value)
  | stripe_checkout_sessions_create (params : value)
  | axios_post (url : string) (data : value) (config : value).

(** What the program cannot decide: the clock, how a provider settles the
    promise of a call (a result or a rejection reason), and what
    [express.static] finds in [../public] for a request (the response that
    serves a file, if there is one to serve). *)
Record world : Type := World {
  Date_now : number;
  settle : call -> completion value;
  express_static : request -> option response
}.

(** A computation that makes calls: it extends the trace of the calls made
    so far and completes or throws. *)
Definition eff (A : Type) : Type := list call -> completion A * list call.

Definition ret {A : Type} (a : A) : eff A := fun t => (Normal a, t).

Definition throw {A : Type} (e : value) : eff A := fun t => (Throw e, t).

Definition bind_eff {A B : Type} (c : eff A) (k : A -> eff B) : eff B :=
  fun t =>
    match c t with
    | (Normal a, t') => k a t'
    | (Throw e, t') => (Throw e, t')
    end.

Definition lift {A : Type} (c : completion A) : eff A := fun t => (c, t).

(** [try { c } catch (err) { h err }] *)
Definition try_catch {A : Type} (c : eff A) (h : value -> eff A) : eff A :=
  fun t =>
    match c t with
    | (Normal a, t') => (Normal a, t')
    | (Throw e, t') => h e t'
    end.

Notation "x <- c ;; k" := (bind_eff c (fun x => k))
  (at level 61, c at next level, right associativity).

(** ** The credentials, read once from the environment *)

Record credentials : Type := Credentials {
  RAZORPAY_KEY_ID : string;
  RAZORPAY_KEY_SECRET : string;
  STRIPE_SECRET : string;
  PAYPAL_CLIENT : string;
  PAYPAL_SECRET : string;
  PAYPAL_API : string
}.

(** [process.env.NAME || ''] *)
Definition env_or_empty (env : string -> option string) (name : string)
  : string :=
  match env name with
  | Some s => s
  | None => ""
  end.

Definition load_credentials (env : string -> option string) : credentials :=
  {| RAZORPAY_KEY_ID := env_or_empty env "RAZORPAY_KEY_ID";
     RAZORPAY_KEY_SECRET := env_or_empty env "RAZORPAY_KEY_SECRET";
     STRIPE_SECRET := env_or_empty env "STRIPE_SECRET_KEY";
     PAYPAL_CLIENT := env_or_empty env "PAYPAL_CLIENT_ID";
     PAYPAL_SECRET := env_or_empty env "PAYPAL_CLIENT_SECRET";
     PAYPAL_API :=
       match env "PAYPAL_MODE" with
       | Some mode =>
           if String.eqb mode "live" then "https://api-m.paypal.com"
           else "https://api-m.sandbox.paypal.com"
       | None => "https://api-m.sandbox.paypal.com"
       end |}.

(** ** The clients, built once when the module is loaded *)

(** The constructors of the [razorpay] and [stripe] packages: each returns
    a client or throws. *)
Record packages : Type := Packages {
  new_Razorpay : string -> string -> completion unit;
  new_Stripe : string -> completion unit
}.

(** [const razorpay = new Razorpay({ key_id, key_secret })] and
    [const stripe = Stripe(STRIPE_SECRET)], at the top level of the
    module: what a constructor throws, [require('./payments')] throws. *)
Definition load_clients (pkg : packages) (cfg : credentials)
  : completion unit :=
  let! _ := new_Razorpay pkg (RAZORPAY_KEY_ID cfg) (RAZORPAY_KEY_SECRET cfg) in
  new_Stripe pkg (STRIPE_SECRET cfg).

Section Handlers.

(** The world a request is served in, the credentials of the process and
    the case mapping of the engine's [String.prototype.toLowerCase]. *)
Variable w : world.
Variable cfg : credentials.
Variable String_toLowerCase : string -> string.

(** [await] of a provider call. *)
Definition await (c : call) : eff value :=
  fun t => (settle w c, (t ++ [c])%list).

(** Helper: get PayPal OAuth token *)
Definition getPaypalToken : eff value :=
  if (String.eqb (PAYPAL_CLIENT cfg) "") || (String.eqb (PAYPAL_SECRET cfg) "")
  then throw (Error "PayPal credentials missing")
  else
    let auth := base64 (PAYPAL_CLIENT cfg ++ ":" ++ PAYPAL_SECRET cfg) in
    resp <- await
      (axios_post (PAYPAL_API cfg ++ "/v1/oauth2/token")
         (VStr "grant_type=client_credentials")
         (VObj [("headers", VObj
            [("Authorization", VStr ("Basic " ++ auth));
             ("Content-Type", VStr "application/x-www-form-urlencoded")])])) ;;
    data <- lift (get resp "data") ;;
    lift (get data "access_token").

(** [!amount || isNaN(amount) || Number(amount) <= 0], the test the three
    create handlers start with. *)
Definition invalid_amount (amount : value) : completion bool :=
  if negb (ToBoolean amount) then Normal true
  else
    let! nan := global_isNaN amount in
    if nan then Normal true
    else let! n := Number amount in Normal (leb n zero).

(** [Math.round(Number(amount) * 100)] *)
Definition minor_units (amount : value) : completion number :=
  let! n := Number amount in Normal (Math_round (mul n (of_int 100))).

(** Create Razorpay order *)
Definition createRazorpayOrder (req : request) : eff response :=
  try_catch
    (amount <- lift (destructure (body req) "amount") ;;
     currency <- lift (get (body req) "currency") ;;
     let currency := default_to (VStr "INR") currency in
     invalid <- lift (invalid_amount amount) ;;
     if invalid then
       ret (res_status_json 400 (VObj
         [("error", VStr "Invalid amount. Send amount in rupees (number).")]))
     else
       amountPaise <- lift (minor_units amount) ;;
       order <- await (razorpay_orders_create (VObj
         [("amount", VNum amountPaise);
          ("currency", currency);
          ("receipt", VStr ("booking_" ++ toString (Date_now w)));
          ("payment_capture", VNum (of_int 1))])) ;;
       ret (res_json order))
    (fun err =>
       (* console.error(..., err?.response?.data || err.message || err) *)
       _ <- lift
         (let data := get_opt (get_opt err "response") "data" in
          if ToBoolean data then Normal data
          else let! message := get err "message" in
               Normal (or_else message err)) ;;
       ret (res_status_json 500 (VObj
         [("error", VStr "Razorpay order creation failed");
          ("details", or_else (get_opt err "message") err)]))).

(** Verify Razorpay payment signature

    The properties of [razor] are read with [get_opt]: where the source
    reads them [razor] is truthy, or [||] has stopped at [!razor], so the
    reads cannot throw. *)
Definition verifyRazorpayPayment (req : request) : eff response :=
  try_catch
    (razor <- lift (destructure (body req) "razor") ;;
     booking <- lift (get (body req) "booking") ;;
     if negb (ToBoolean razor)
        || negb (ToBoolean (get_opt razor "razorpay_payment_id"))
        || negb (ToBoolean (get_opt razor "razorpay_order_id"))
        || negb (ToBoolean (get_opt razor "razorpay_signature"))
     then
       ret (res_status_json 400 (VObj
         [("success", VBool false); ("error", VStr "Missing razor payload")]))
     else
       order_id <- lift (ToString (get_opt razor "razorpay_order_id")) ;;
       payment_id <- lift (ToString (get_opt razor "razorpay_payment_id")) ;;
       let generated_signature :=
         createHmac_sha256_hex (RAZORPAY_KEY_SECRET cfg)
           (order_id ++ "|" ++ payment_id) in
       if strict_equal_string generated_signature
            (get_opt razor "razorpay_signature")
       then ret (res_json (VObj [("success", VBool true)]))
       else
         ret (res_status_json 400 (VObj
           [("success", VBool false); ("error", VStr "signature_mismatch")])))
    (fun err =>
       ret (res_status_json 500 (VObj
         [("success", VBool false);
          ("error", VStr "verify failed");
          ("details", or_else (get_opt err "message") err)]))).

(** [l.map(s => s.name)] *)
Fixpoint map_name (l : list value) : completion (list value) :=
  match l with
  | [] => Normal []
  | s :: r =>
      let! name := get s "name" in
      let! names := map_name r in
      Normal (name :: names)
  end.

(** [currency.toLowerCase()] *)
Definition toLowerCase (currency : value) : completion value :=
  match currency with
  | VStr s => Normal (VStr (String_toLowerCase s))
  | VUndefined | VNull => Throw (TypeError_not_coercible "toLowerCase" currency)
  | _ => Throw (TypeError_not_a_function "currency.toLowerCase")
  end.

(** Create Stripe Checkout session *)
Definition createStripeSession (req : request) : eff response :=
  try_catch
    (booking <- lift (destructure (body req) "booking") ;;
     let booking := default_to (VObj []) booking in
     amount <- lift (get (body req) "amount") ;;
     currency <- lift (get (body req) "currency") ;;
     let currency := default_to (VStr "INR") currency in
     invalid <- lift (invalid_amount amount) ;;
     if invalid then
       ret (res_status_json 400 (VObj
         [("error", VStr "Invalid amount. Send amount in rupees (number).")]))
     else
       unitAmount <- lift (minor_units amount) ;;
       origin <- lift (ToString
         (or_else (header "origin" (headers req))
                  (VStr "http://localhost:3000"))) ;;
       let successUrl := origin ++ "/success.html" in
       let cancelUrl := origin ++ "/failure.html" in
       lower <- lift (toLowerCase currency) ;;
       services <- lift (get booking "services") ;;
       name <- lift
         (match services with
          | VArr l => let! names := map_name l in Array_join ", " names
          | _ => let! name := get booking "name" in
                 ToString (or_else name (VStr "Customer"))
          end) ;;
       session <- await (stripe_checkout_sessions_create (VObj
         [("payment_method_types", VArr [VStr "card"]);
          ("mode", VStr "payment");
          ("line_items", VArr [VObj
             [("price_data", VObj
                [("currency", lower);
                 ("product_data", VObj [("name", VStr ("Booking: " ++ name))]);
                 ("unit_amount", VNum unitAmount)]);
              ("quantity", VNum (of_int 1))]]);
          ("success_url", VStr successUrl);
          ("cancel_url", VStr cancelUrl);
          ("metadata", VObj
             [("booking", JSON_stringify (or_else booking (VObj [])))])])) ;;
       id <- lift (get session "id") ;;
       ret (res_json (VObj [("id", id)])))
    (fun err =>
       ret (res_status_json 500 (VObj
         [("error", VStr "Stripe session creation failed");
          ("details", or_else (get_opt err "message") err)]))).

(** [err?.response?.data || err?.message || err] *)
Definition paypal_details (err : value) : value :=
  or_else (get_opt (get_opt err "response") "data")
          (or_else (get_opt err "message") err).

(** Create PayPal order (server-side) *)
Definition createPaypalOrder (req : request) : eff response :=
  try_catch
    (amount <- lift (destructure (body req) "amount") ;;
     currency <- lift (get (body req) "currency") ;;
     let currency := default_to (VStr "INR") currency in
     invalid <- lift (invalid_amount amount) ;;
     if invalid then
       ret (res_status_json 400 (VObj [("error", VStr "Invalid amount")]))
     else
       accessToken <- getPaypalToken ;;
       value <- lift (String_ amount) ;;
       bearer <- lift (ToString accessToken) ;;
       orderResp <- await
         (axios_post (PAYPAL_API cfg ++ "/v2/checkout/orders")
            (VObj
               [("intent", VStr "CAPTURE");
                ("purchase_units", VArr [VObj
                   [("amount", VObj
                      [("currency_code", currency);
                       ("value", VStr value)])]])])
            (VObj [("headers", VObj
               [("Authorization", VStr ("Bearer " ++ bearer));
                ("Content-Type", VStr "application/json")])])) ;;
       data <- lift (get orderResp "data") ;;
       id <- lift (get data "id") ;;
       ret (res_json (VObj [("orderId", id); ("order", data)])))
    (fun err =>
       ret (res_status_json 500 (VObj
         [("error", VStr "PayPal create order failed");
          ("details", paypal_details err)]))).

(** Capture PayPal order *)
Definition capturePaypalPayment (req : request) : eff response :=
  try_catch
    (orderId <- lift (destructure (body req) "orderId") ;;
     if negb (ToBoolean orderId) then
       ret (res_status_json 400 (VObj
         [("success", VBool false); ("error", VStr "Missing orderId")]))
     else
       accessToken <- getPaypalToken ;;
       id <- lift (ToString orderId) ;;
       bearer <- lift (ToString accessToken) ;;
       captureResp <- await
         (axios_post
            (PAYPAL_API cfg ++ "/v2/checkout/orders/" ++ id ++ "/capture")
            (VObj [])
            (VObj [("headers", VObj
               [("Authorization", VStr ("Bearer " ++ bearer));
                ("Content-Type", VStr "application/json")])])) ;;
       data <- lift (get captureResp "data") ;;
       ret (res_json (VObj [("success", VBool true); ("capture", data)])))
    (fun err =>
       ret (res_status_json 500 (VObj
         [("success", VBool false);
          ("error", VStr "PayPal capture failed");
          ("details", paypal_details err)]))).

End Handlers.

End Payments.

(* ================================================================== *)
(** * server.js *)
(* ================================================================== *)

Module Server.

Import Js Payments.

(** ** The matching of the router *)

(** A route path without parameters is compiled to a regular expression
    that ignores the case of the letters and accepts one trailing slash
    ([/^\/health\/?$/i]); it is matched against the path of the URL as
    it was sent, before any decoding. *)
Definition fold_case (s : string) : string :=
  string_of_bytes
    (map (fun b => if (65 <=? b) && (b <=? 90) then b + 32 else b)
         (bytes_of_string s)).

Definition route_matches (route path : string) : bool :=
  let p := fold_case path in
  String.eqb p (fold_case route) || String.eqb p (fold_case route ++ "/").

(** The route ['*'] matches every path and binds it, decoded, to its
    parameter: [decodeURIComponent] throws on an escape that is not [%]
    and two hexadecimal digits, and on escaped bytes that are not
    well-formed UTF-8. *)
Definition hex_value (c : Z) : option Z :=
  if (48 <=? c) && (c <=? 57) then Some (c - 48)
  else if (65 <=? c) && (c <=? 70) then Some (c - 55)
  else if (97 <=? c) && (c <=? 102) then Some (c - 87)
  else None.

(** The byte of the escape [%XY] at the head of [l], and what follows. *)
Definition escape (l : list Z) : option (Z * list Z) :=
  match l with
  | 37 :: x :: y :: r =>
      match hex_value x, hex_value y with
      | Some a, Some b => Some (16 * a + b, r)
      | _, _ => None
      end
  | _ => None
  end.

(** An escaped continuation byte between [lo] and [hi]. *)
Definition continuation (lo hi : Z) (l : option (list Z))
  : option (list Z) :=
  match l with
  | Some l =>
      match escape l with
      | Some (b, r) => if (lo <=? b) && (b <=? hi) then Some r else None
      | None => None
      end
  | None => None
  end.

(** What follows the UTF-8 sequence that the escaped byte [b] starts. *)
Definition utf8_sequence (b : Z) (l : list Z) : option (list Z) :=
  let tail := continuation 128 191 in
  if b <? 128 then Some l
  else if b <? 194 then None
  else if b <? 224 then tail (Some l)
  else if b =? 224 then tail (continuation 160 191 (Some l))
  else if b =? 237 then tail (continuation 128 159 (Some l))
  else if b <? 240 then tail (tail (Some l))
  else if b =? 240 then tail (tail (continuation 144 191 (Some l)))
  else if b <? 244 then tail (tail (tail (Some l)))
  else if b =? 244 then tail (tail (continuation 128 143 (Some l)))
  else None.

Fixpoint decodes (fuel : nat) (l : list Z) : bool :=
  match fuel, l with
  | _, [] => true
  | O, _ :: _ => false
  | S fuel, c :: r =>
      if c =? 37 then
        match escape l with
        | Some (b, r') =>
            match utf8_sequence b r' with
            | Some r'' => decodes fuel r''
            | None => false
            end
        | None => false
        end
      else decodes fuel r
  end.

(** [decodeURIComponent(path)] returns. *)
Definition decodable (path : string) : bool :=
  let l := bytes_of_string path in decodes (List.length l) l.

(** ** The application *)

Section App.

Variable w : world.
Variable cfg : credentials.
Variable String_toLowerCase : string -> string.

(** Health check *)
Definition health (req : request) : eff response :=
  ret (res_json (VObj [("ok", VBool true)])).

(** Fallback: always return index.html for frontend routing *)
Definition fallback (req : request) : eff response :=
  ret (Response 200 (File "../public/index.html")).

(** The middleware and the routes, in the order they are registered;
    [path] is the path of the URL as it was sent, [body] what the body
    parsers made of the body (a request they refuse is answered by them).
    - [cors()] answers every [OPTIONS] request itself, with 204;
    - [express.static] serves [GET] and [HEAD] requests for which it finds
      a file, and passes the others on;
    - a route serves a request of its method whose path it matches; [HEAD]
      is served by the routes of [GET];
    - the path of a request that reaches ['*'] is decoded whatever the
      method, and the request is answered with 400 when that fails;
    - a request that no route serves gets the 404 of the final handler. *)
Definition app (req : request) : eff response :=
  let POST := String.eqb (method req) "POST" in
  let GET := String.eqb (method req) "GET" || String.eqb (method req) "HEAD" in
  let at_ route := route_matches route (path req) in
  if String.eqb (method req) "OPTIONS" then ret (Response 204 NoContent)
  else
    match (if GET then express_static w req else None) with
    | Some file => ret file
    | None =>
        if POST && at_ "/create-razorpay-order" then createRazorpayOrder w req
        else if POST && at_ "/verify-razorpay-payment"
          then verifyRazorpayPayment cfg req
        else if POST && at_ "/create-stripe-session"
          then createStripeSession w String_toLowerCase req
        else if POST && at_ "/create-paypal-order"
          then createPaypalOrder w cfg req
        else if POST && at_ "/capture-paypal-payment"
          then capturePaypalPayment w cfg req
        else if GET && at_ "/health" then health req
        else if negb (decodable (path req)) then ret (Response 400 ErrorPage)
        else if GET then fallback req
        else ret (Response 404 ErrorPage)
    end.

(** Serving one request: the response, if one is sent, and the calls made
    to the providers, in order. *)
Definition serve (req : request) : completion response * list call :=
  app req [].

End App.

(** ** The process *)

Section Process.

Variable pkg : packages.
Variable w : world.
Variable env : string -> option string.
Variable String_toLowerCase : string -> string.

(** [const payments = require('./payments')] reads the credentials and
    builds the clients; an exception there is not caught, and the process
    ends before [app.listen]. *)
Definition start : completion credentials :=
  let cfg := load_credentials env in
  let! _ := load_clients pkg cfg in
  Normal cfg.

(** What a request sent to the process gets: nothing when the process
    did not start. *)
Definition answer (req : request)
  : option (completion response * list call) :=
  match start with
  | Normal cfg => Some (serve w cfg String_toLowerCase req)
  | Throw _ => None
  end.

End Process.

End Server.

(* ================================================================== *)
(** * The vocabulary of the properties *)
(* ================================================================== *)

Import JsNumber Js Crypto Payments Server.

Definition verified : response :=
  Response 200 (Json (VObj [("success", VBool true)])).

Definition missing_razor_payload : response :=
  Response 400 (Json (VObj
    [("success", VBool false); ("error", VStr "Missing razor payload")])).

Definition signature_mismatch : response :=
  Response 400 (Json (VObj
    [("success", VBool false); ("error", VStr "signature_mismatch")])).

(** The reason a response carries, if it is a JSON object. *)
Definition error_of (r : response) : value :=
  match sent r with
  | Json v => get_opt v "error"
  | _ => VUndefined
  end.

(** All of [razor], [razor.razorpay_payment_id], [razor.razorpay_order_id]
    and [razor.razorpay_signature] pass the presence test of the handler. *)
Definition payload_present (razor : value) : bool :=
  ToBoolean razor
  && ToBoolean (get_opt razor "razorpay_payment_id")
  && ToBoolean (get_opt razor "razorpay_order_id")
  && ToBoolean (get_opt razor "razorpay_signature").

(** The three fields of the verification payload. *)
Definition verification_fields : list string :=
  ["razorpay_payment_id"; "razorpay_order_id"; "razorpay_signature"].

(** The amounts the create operations must refuse: a missing one, one that
    is not a number ([isNaN]), and one that is not above zero. *)
Inductive refused_amount : value -> Prop :=
  | amount_missing : refused_amount VUndefined
  | amount_NaN (v : value) (n : number) :
      ToNumber v = Normal n -> isNaN n = true -> refused_amount v
  | amount_not_positive (v : value) (n : number) :
      ToNumber v = Normal n -> leb n zero = true -> refused_amount v.

(** A positive amount: it converts to a Number above zero. *)
Definition positive_amount (v : value) (n : number) : Prop :=
  Number v = Normal n /\ ltb zero n = true.

Definition invalid_amount_rupees : response :=
  Response 400 (Json (VObj
    [("error", VStr "Invalid amount. Send amount in rupees (number).")])).

Definition invalid_amount_paypal : response :=
  Response 400 (Json (VObj [("error", VStr "Invalid amount")])).

Definition missing_order_id : response :=
  Response 400 (Json (VObj
    [("success", VBool false); ("error", VStr "Missing orderId")])).

(** The fields of the arguments of a provider call that carry the amount
    and the product name. *)
Definition unit_amount_of (params : value) : value :=
  match get_opt params "line_items" with
  | VArr [item] => get_opt (get_opt item "price_data") "unit_amount"
  | _ => VUndefined
  end.

Definition product_name_of (params : value) : value :=
  match get_opt params "line_items" with
  | VArr [item] =>
      get_opt (get_opt (get_opt item "price_data") "product_data") "name"
  | _ => VUndefined
  end.

Definition purchase_value_of (data : value) : value :=
  match get_opt data "purchase_units" with
  | VArr [unit] => get_opt (get_opt unit "amount") "value"
  | _ => VUndefined
  end.

(** The booking of a create-session request: [{}] when the body has none. *)
Definition booking_of (req : request) : value :=
  default_to (VObj []) (get_opt (body req) "booking").

(** The text after [Booking: ] in the product name. *)
Definition booking_label (booking : value) : completion string :=
  match get_opt booking "services" with
  | VArr services =>
      let! names := map_name services in Array_join ", " names
  | _ => ToString (or_else (get_opt booking "name") (VStr "Customer"))
  end.

Definition credentials_missing (cfg : credentials) : Prop :=
  PAYPAL_CLIENT cfg = "" \/ PAYPAL_SECRET cfg = "".

Definition paypal_create_failed : response :=
  Response 500 (Json (VObj
    [("error", VStr "PayPal create order failed");
     ("details", VStr "PayPal credentials missing")])).

Definition paypal_capture_failed : response :=
  Response 500 (Json (VObj
    [("success", VBool false);
     ("error", VStr "PayPal capture failed");
     ("details", VStr "PayPal credentials missing")])).

(** ** The data of the examples *)

(** The configuration and the requests the examples run on. *)
Definition cfg0 : credentials :=
  Credentials "rzp_test_key" "secret" "sk_test" "id" "secret"
              "https://api-m.sandbox.paypal.com".

Definition no_credentials : credentials := load_credentials (fun _ => None).

(** The constructors as the packages have them.  [razorpay]
    (lib/razorpay.js) checks its options:
    [if (!key_id && !oauthToken) throw new Error(...)] and
    [if (key_id && !key_secret) throw new Error(...)]; the [stripe] of
    the example takes any key. *)
Definition node_packages : packages :=
  Packages
    (fun key_id key_secret =>
       if String.eqb key_id ""
       then Throw (Error "`key_id` or `oauthToken` is mandatory")
       else if String.eqb key_secret ""
       then Throw (Error "`key_secret` is mandatory")
       else Normal tt)
    (fun _ => Normal tt).

(** An environment with the keys of the regional and the card gateway,
    and nothing for the wallet gateway. *)
Definition env_without_wallet (name : string) : option string :=
  if String.eqb name "RAZORPAY_KEY_ID" then Some "rzp_test_key"
  else if String.eqb name "RAZORPAY_KEY_SECRET" then Some "secret"
  else if String.eqb name "STRIPE_SECRET_KEY" then Some "sk_test"
  else None.

Definition health_request : request := Request "GET" "/health" [] (VObj []).

Definition verify_request (signature booking : value) : request :=
  Request "POST" "/verify-razorpay-payment" []
    (VObj [("razor", VObj
              [("razorpay_payment_id", VStr "pay_1");
               ("razorpay_order_id", VStr "order_1");
               ("razorpay_signature", signature)]);
           ("booking", booking)]).

Definition signature0 : string :=
  "52115a0d3400de9e86aade1f1b6eba9e8974604f4e267a9e9a16633a4c8dd2cb".

(** The digest of the example in upper case: it differs from the computed
    one in the case of its letters only. *)
Definition signature0_upper : string :=
  "52115A0D3400DE9E86AADE1F1B6EBA9E8974604F4E267A9E9A16633A4C8DD2CB".

Definition request_without_signature : request :=
  Request "POST" "/verify-razorpay-payment" []
    (VObj [("razor", VObj
              [("razorpay_payment_id", VStr "pay_1");
               ("razorpay_order_id", VStr "order_1")]);
           ("booking", VNull)]).

(** A world for the examples: the providers accept every call. *)
Definition world0 : world :=
  World (of_int 1700000000000)
    (fun c =>
       match c with
       | razorpay_orders_create options =>
           Normal (VObj [("id", VStr "order_1");
                         ("amount", get_opt options "amount")])
       | stripe_checkout_sessions_create _ =>
           Normal (VObj [("id", VStr "cs_test_1")])
       | axios_post _ _ _ =>
           Normal (VObj [("data", VObj [("access_token", VStr "A21AA");
                                        ("id", VStr "5O190127TN364715T")])])
       end)
    (fun _ => None).

(** ASCII lower case, the engine's case mapping on the examples. *)
Definition ascii_lower (s : string) : string :=
  string_of_bytes
    (map (fun b => if (65 <=? b) && (b <=? 90) then b + 32 else b)
         (bytes_of_string s)).

Definition create_request (route : string) (fields : list (string * value))
  : request :=
  Request "POST" route [("origin", "https://npbeauty.example")] (VObj fields).

(** The three create handlers refuse the request with these fields, and
    call nothing. *)
Definition refused_by_all (fields : list (string * value)) : Prop :=
  let req := create_request "/create-razorpay-order" fields in
  createRazorpayOrder world0 req [] = (Normal invalid_amount_rupees, [])
  /\ createStripeSession world0 ascii_lower req []
     = (Normal invalid_amount_rupees, [])
  /\ createPaypalOrder world0 cfg0 req [] = (Normal invalid_amount_paypal, []).

Definition booking_request (booking : value) : request :=
  create_request "/create-stripe-session"
    [("booking", booking); ("amount", VNum (of_int 500))].

(** What the card gateway is sent for a request, if anything. *)
Definition stripe_params (req : request) : value :=
  match snd (createStripeSession world0 ascii_lower req []) with
  | [stripe_checkout_sessions_create params] => params
  | _ => VUndefined
  end.

Definition two_services : value :=
  VObj [("name", VStr "Asha");
        ("services", VArr [VObj [("name", VStr "Hair")];
                           VObj [("name", VStr "Makeup")]])].

(** The amount 100.5 of the specification. *)
Definition hundred_and_a_half : number :=
  Eval vm_compute in StringToNumber "100.5".

Definition request_100_5 (route : string) : request :=
  create_request route [("amount", VNum hundred_and_a_half)].

(** A world whose providers reject every call with the same reason. *)
Definition rejecting_world (reason : value) : world :=
  World (of_int 1700000000000) (fun _ => Throw reason) (fun _ => None).

(** ** The vocabulary of the further properties *)

(** [undefined] or [null]. *)
Definition nullish (v : value) : bool :=
  match v with
  | VUndefined | VNull => true
  | _ => false
  end.

(** The statuses a handler answers with. *)
Definition known_status (r : response) : Prop :=
  status r = 200 \/ status r = 400 \/ status r = 500.

(** [err?.message || err] *)
Definition details_of (err : value) : value :=
  or_else (get_opt err "message") err.

(** The answers of the [catch] blocks. *)
Definition verify_failed (err : value) : response :=
  Response 500 (Json (VObj
    [("success", VBool false);
     ("error", VStr "verify failed");
     ("details", details_of err)])).

Definition razorpay_failed (err : value) : response :=
  Response 500 (Json (VObj
    [("error", VStr "Razorpay order creation failed");
     ("details", details_of err)])).

Definition stripe_failed (err : value) : response :=
  Response 500 (Json (VObj
    [("error", VStr "Stripe session creation failed");
     ("details", details_of err)])).

Definition paypal_create_error (err : value) : response :=
  Response 500 (Json (VObj
    [("error", VStr "PayPal create order failed");
     ("details", paypal_details err)])).

Definition paypal_capture_error (err : value) : response :=
  Response 500 (Json (VObj
    [("success", VBool false);
     ("error", VStr "PayPal capture failed");
     ("details", paypal_details err)])).

(** The currency of a create request: [INR] when the body has none. *)
Definition currency_of (req : request) : value :=
  default_to (VStr "INR") (get_opt (body req) "currency").

(** The order the regional gateway is asked to create. *)
Definition razorpay_options (w : world) (req : request) (amountPaise : number)
  : value :=
  VObj [("amount", VNum amountPaise);
        ("currency", currency_of req);
        ("receipt", VStr ("booking_" ++ toString (Date_now w)));
        ("payment_capture", VNum (of_int 1))].

Definition razorpay_call (w : world) (req : request) (n : number) : call :=
  razorpay_orders_create
    (razorpay_options w req (Math_round (mul n (of_int 100)))).

(** No provider call is rejected with [undefined] or [null]. *)
Definition rejections_have_reasons (w : world) : Prop :=
  forall (c : call) (e : value), settle w c = Throw e -> nullish e = false.

(** The origin the redirect URLs of a checkout session start with. *)
Definition checkout_origin (req : request) : string :=
  match header "origin" (headers req) with
  | VStr s => if String.eqb s "" then "http://localhost:3000" else s
  | _ => "http://localhost:3000"
  end.

(** The session the card gateway is asked to create. *)
Definition stripe_session_params (req : request) (lowered : value)
    (label : string) (unitAmount : number) : value :=
  VObj
    [("payment_method_types", VArr [VStr "card"]);
     ("mode", VStr "payment");
     ("line_items", VArr [VObj
        [("price_data", VObj
           [("currency", lowered);
            ("product_data", VObj [("name", VStr ("Booking: " ++ label))]);
            ("unit_amount", VNum unitAmount)]);
         ("quantity", VNum (of_int 1))]]);
     ("success_url", VStr (checkout_origin req ++ "/success.html"));
     ("cancel_url", VStr (checkout_origin req ++ "/failure.html"));
     ("metadata", VObj
        [("booking", JSON_stringify (or_else (booking_of req) (VObj [])))])].

(** The arguments of the session, in the order the source builds them;
    building them can throw. *)
Definition stripe_arguments (lower : string -> string) (req : request)
    (unitAmount : number) : completion value :=
  let! lowered := toLowerCase lower (currency_of req) in
  let! services := get (booking_of req) "services" in
  let! label := booking_label (booking_of req) in
  Normal (stripe_session_params req lowered label unitAmount).

(** The answer to a settled creation of a session: [{id: session.id}]. *)
Definition stripe_answer (settled : completion value) : response :=
  match settled with
  | Throw e => stripe_failed e
  | Normal session =>
      match get session "id" with
      | Normal id => res_json (VObj [("id", id)])
      | Throw e => stripe_failed e
      end
  end.

(** The calls of the wallet gateway: the token exchange, the creation of
    an order and the capture. *)
Definition token_call (cfg : credentials) : call :=
  axios_post (PAYPAL_API cfg ++ "/v1/oauth2/token")
    (VStr "grant_type=client_credentials")
    (VObj [("headers", VObj
       [("Authorization",
         VStr ("Basic "
               ++ base64 (PAYPAL_CLIENT cfg ++ ":" ++ PAYPAL_SECRET cfg)));
        ("Content-Type", VStr "application/x-www-form-urlencoded")])]).

Definition bearer_config (bearer : string) : value :=
  VObj [("headers", VObj
    [("Authorization", VStr ("Bearer " ++ bearer));
     ("Content-Type", VStr "application/json")])].

Definition order_call (cfg : credentials) (currency : value)
    (text bearer : string) : call :=
  axios_post (PAYPAL_API cfg ++ "/v2/checkout/orders")
    (VObj
       [("intent", VStr "CAPTURE");
        ("purchase_units", VArr [VObj
           [("amount", VObj
              [("currency_code", currency); ("value", VStr text)])]])])
    (bearer_config bearer).

Definition capture_call (cfg : credentials) (id bearer : string) : call :=
  axios_post (PAYPAL_API cfg ++ "/v2/checkout/orders/" ++ id ++ "/capture")
    (VObj []) (bearer_config bearer).

(** The access token a settled token exchange gives: [resp.data.access_token]. *)
Definition access_token_of (settled : completion value) : completion value :=
  let! resp := settled in
  let! data := get resp "data" in
  get data "access_token".

(** The text of the access token, as the [Authorization] header has it. *)
Definition bearer_of (w : world) (cfg : credentials) : completion string :=
  let! token := access_token_of (settle w (token_call cfg)) in
  ToString token.

(** The answer to a settled creation of an order:
    [{orderId: resp.data.id, order: resp.data}]. *)
Definition paypal_order_answer (settled : completion value) : response :=
  match
    (let! resp := settled in
     let! data := get resp "data" in
     let! id := get data "id" in
     Normal (res_json (VObj [("orderId", id); ("order", data)])))
  with
  | Normal r => r
  | Throw e => paypal_create_error e
  end.

(** The answer to a settled capture: [{success: true, capture: resp.data}]. *)
Definition paypal_capture_answer (settled : completion value) : response :=
  match
    (let! resp := settled in
     let! data := get resp "data" in
     Normal (res_json (VObj [("success", VBool true); ("capture", data)])))
  with
  | Normal r => r
  | Throw e => paypal_capture_error e
  end.

Definition credentials_present (cfg : credentials) : Prop :=
  PAYPAL_CLIENT cfg <> "" /\ PAYPAL_SECRET cfg <> "".

Definition health_ok : response :=
  Response 200 (Json (VObj [("ok", VBool true)])).

(** ** Tactics *)

Arguments createHmac_sha256_hex : simpl never.
Arguments toString : simpl never.
Arguments StringToNumber : simpl never.
Arguments mul : simpl never.
Arguments Math_round : simpl never.
Arguments of_int : simpl never.
Arguments base64 : simpl never.
Arguments JSON_stringify : simpl never.

Create HintDb handlers.
#[local] Hint Unfold try_catch bind_eff lift ret throw await : handlers.
#[local] Hint Unfold destructure : handlers.
#[local] Hint Unfold res_json res_status_json : handlers.

(** Unfolds the plumbing of the effects. *)
Ltac plumbing := autounfold with handlers; cbn beta iota.

(** Splits on the completion the goal depends on next. *)
Ltac step :=
  match goal with
  | |- context [match ?c with Normal _ => _ | Throw _ => _ end] =>
      lazymatch c with
      | Normal _ => cbn beta iota
      | Throw _ => cbn beta iota
      | _ => let E := fresh "E" in destruct c eqn:E
      end
  end.

(* ================================================================== *)
(** * Properties *)
(* ================================================================== *)

(** ** The digest is 64 characters long *)

Lemma hex_length (l : list Z) :
  String.length (hex l) = (2 * List.length l)%nat.
Proof.
  induction l as [|b r IH]; cbn [hex String.length List.length].
  - reflexivity.
  - rewrite IH. lia.
Qed.

Lemma be_bytes_length (n : nat) (x : Z) : List.length (be_bytes n x) = n.
Proof.
  unfold be_bytes. now rewrite length_map, length_rev, length_seq.
Qed.

Lemma sha256_length (msg : list Z) : List.length (sha256 msg) = 32%nat.
Proof.
  unfold sha256.
  generalize (blocks (List.length (pad msg)) H0 (pad msg)); intros r.
  cbn [flat_map]. rewrite !length_app, !be_bytes_length. reflexivity.
Qed.

Lemma createHmac_sha256_hex_length (key data : string) :
  String.length (createHmac_sha256_hex key data) = 64%nat.
Proof.
  unfold createHmac_sha256_hex, hmac_sha256.
  now rewrite hex_length, sha256_length.
Qed.

Lemma nonempty_truthy (s : string) :
  s <> "" -> ToBoolean (VStr s) = true.
Proof.
  intros H. cbn [ToBoolean]. destruct s; [congruence | reflexivity].
Qed.

Lemma digest_truthy (key data : string) :
  ToBoolean (VStr (createHmac_sha256_hex key data)) = true.
Proof.
  apply nonempty_truthy. intros E.
  pose proof (createHmac_sha256_hex_length key data) as L.
  rewrite E in L. discriminate L.
Qed.

(** ** Reading the request body *)

(** A body whose pattern match gave one property gives any other. *)
Lemma get_total (v a : value) (k k' : string) :
  get v k = Normal a -> get v k' = Normal (get_opt v k').
Proof. destruct v; cbn; intros H; try discriminate H; reflexivity. Qed.

Lemma get_get_opt (v a : value) (k : string) :
  get v k = Normal a -> a = get_opt v k.
Proof. destruct v; cbn; intros H; try discriminate H; congruence. Qed.

(** ** The verification handler, path by path *)

Lemma verify_missing (cfg : credentials) (req : request) (razor : value)
    (t : list call) :
  get (body req) "razor" = Normal razor ->
  payload_present razor = false ->
  verifyRazorpayPayment cfg req t = (Normal missing_razor_payload, t).
Proof.
  intros Hr Hp. unfold verifyRazorpayPayment. plumbing.
  rewrite Hr, (get_total _ _ _ "booking" Hr).
  unfold payload_present in Hp.
  destruct (ToBoolean razor), (ToBoolean (get_opt razor "razorpay_payment_id")),
    (ToBoolean (get_opt razor "razorpay_order_id")),
    (ToBoolean (get_opt razor "razorpay_signature"));
    try discriminate Hp; reflexivity.
Qed.

Lemma verify_computed (cfg : credentials) (req : request) (razor : value)
    (o p : string) (t : list call) :
  get (body req) "razor" = Normal razor ->
  payload_present razor = true ->
  ToString (get_opt razor "razorpay_order_id") = Normal o ->
  ToString (get_opt razor "razorpay_payment_id") = Normal p ->
  verifyRazorpayPayment cfg req t =
    (Normal
       (if strict_equal_string
             (createHmac_sha256_hex (RAZORPAY_KEY_SECRET cfg) (o ++ "|" ++ p))
             (get_opt razor "razorpay_signature")
        then verified else signature_mismatch), t).
Proof.
  intros Hr Hp Ho Hpay. unfold verifyRazorpayPayment. plumbing.
  rewrite Hr, (get_total _ _ _ "booking" Hr).
  unfold payload_present in Hp.
  destruct (ToBoolean razor), (ToBoolean (get_opt razor "razorpay_payment_id")),
    (ToBoolean (get_opt razor "razorpay_order_id")),
    (ToBoolean (get_opt razor "razorpay_signature"));
    try discriminate Hp.
  cbn [negb orb]. rewrite Ho, Hpay.
  destruct (strict_equal_string _ _); reflexivity.
Qed.

Lemma strict_equal_string_spec (s : string) (v : value) :
  strict_equal_string s v = true <-> v = VStr s.
Proof.
  destruct v; cbn; split; intros H; try discriminate H.
  - apply String.eqb_eq in H. now subst.
  - injection H as ->. apply String.eqb_refl.
Qed.

(** C1.  For every non-empty order id and payment id, and every secret, a
    verification request whose signature is the hex-encoded HMAC-SHA256 of
    [orderId|paymentId] under the stored secret is answered with HTTP 200
    and [{success: true}], and the handler calls no provider. *)
Theorem verify_accepts_signed_payload
    (cfg : credentials) (req : request) (razor : value)
    (orderId paymentId : string) (t : list call) :
  orderId <> "" ->
  paymentId <> "" ->
  get (body req) "razor" = Normal razor ->
  get_opt razor "razorpay_order_id" = VStr orderId ->
  get_opt razor "razorpay_payment_id" = VStr paymentId ->
  get_opt razor "razorpay_signature" =
    VStr (createHmac_sha256_hex (RAZORPAY_KEY_SECRET cfg)
            (orderId ++ "|" ++ paymentId)) ->
  verifyRazorpayPayment cfg req t = (Normal verified, t).
Proof.
  intros Ho Hp Hr Eo Ep Es.
  assert (Hrazor : ToBoolean razor = true).
  { destruct razor; cbn in Eo; try discriminate Eo; reflexivity. }
  rewrite (verify_computed cfg req razor orderId paymentId t Hr).
  - rewrite Es.
    replace (strict_equal_string _ _) with true; [reflexivity|].
    symmetry. now apply strict_equal_string_spec.
  - unfold payload_present.
    rewrite Hrazor, Eo, Ep, Es, digest_truthy, !nonempty_truthy by assumption.
    reflexivity.
  - now rewrite Eo.
  - now rewrite Ep.
Qed.

Lemma verify_accepts_signed_payload_witness :
  verifyRazorpayPayment cfg0 (verify_request (VStr signature0) VNull) []
  = (Normal verified, []).
Proof.
  apply (verify_accepts_signed_payload cfg0 _
           (VObj [("razorpay_payment_id", VStr "pay_1");
                  ("razorpay_order_id", VStr "order_1");
                  ("razorpay_signature", VStr signature0)])
           "order_1" "pay_1");
    try discriminate; vm_compute; reflexivity.
Defined.

(** C3.  When the three fields of the payload are present (they pass the
    presence test of the handler) and the message [orderId|paymentId] can
    be formed, a signature that is not, character for character, the
    lower-case hex digest computed under the stored secret is answered with
    HTTP 400 and [{success: false, error: 'signature_mismatch'}]: the
    handler neither throws nor answers 500, and calls no provider. *)
Theorem verify_rejects_altered_signature
    (cfg : credentials) (req : request) (razor : value)
    (orderId paymentId : string) (t : list call) :
  get (body req) "razor" = Normal razor ->
  payload_present razor = true ->
  ToString (get_opt razor "razorpay_order_id") = Normal orderId ->
  ToString (get_opt razor "razorpay_payment_id") = Normal paymentId ->
  get_opt razor "razorpay_signature" <>
    VStr (createHmac_sha256_hex (RAZORPAY_KEY_SECRET cfg)
            (orderId ++ "|" ++ paymentId)) ->
  verifyRazorpayPayment cfg req t = (Normal signature_mismatch, t).
Proof.
  intros Hr Hp Ho Hpay Hs.
  rewrite (verify_computed cfg req razor orderId paymentId t Hr Hp Ho Hpay).
  destruct (strict_equal_string _ _) eqn:E; [|reflexivity].
  apply strict_equal_string_spec in E. contradiction.
Qed.

Lemma verify_rejects_altered_signature_witness :
  verifyRazorpayPayment cfg0 (verify_request (VStr signature0_upper) VNull) []
  = (Normal signature_mismatch, []).
Proof.
  apply (verify_rejects_altered_signature cfg0 _
           (VObj [("razorpay_payment_id", VStr "pay_1");
                  ("razorpay_order_id", VStr "order_1");
                  ("razorpay_signature", VStr signature0_upper)])
           "order_1" "pay_1");
    try (vm_compute; reflexivity).
  vm_compute. discriminate.
Defined.

Lemma payload_present_false (razor : value) (k : string) :
  In k verification_fields ->
  ToBoolean (get_opt razor k) = false ->
  payload_present razor = false.
Proof.
  unfold verification_fields, payload_present. cbn [In].
  intros [<- | [<- | [<- | []]]] ->;
    rewrite ?andb_false_r; reflexivity.
Qed.

(** C4.  A verification request in which one of the three fields is
    missing (absent, or empty: it fails the presence test) is answered with
    HTTP 400 and the reason 'Missing razor payload', without any provider
    call; and the reason differs from the one of every request that is
    answered as a computed mismatch. *)
Theorem verify_missing_field_is_distinct
    (cfg : credentials) (req : request) (razor : value) (k : string)
    (t : list call) :
  get (body req) "razor" = Normal razor ->
  In k verification_fields ->
  ToBoolean (get_opt razor k) = false ->
  verifyRazorpayPayment cfg req t = (Normal missing_razor_payload, t)
  /\ status missing_razor_payload = 400
  /\ error_of missing_razor_payload = VStr "Missing razor payload"
  /\ forall (req' : request) (razor' : value) (o p : string) (t' : list call),
       get (body req') "razor" = Normal razor' ->
       payload_present razor' = true ->
       ToString (get_opt razor' "razorpay_order_id") = Normal o ->
       ToString (get_opt razor' "razorpay_payment_id") = Normal p ->
       get_opt razor' "razorpay_signature" <>
         VStr (createHmac_sha256_hex (RAZORPAY_KEY_SECRET cfg)
                 (o ++ "|" ++ p)) ->
       exists r', verifyRazorpayPayment cfg req' t' = (Normal r', t')
                  /\ error_of r' <> error_of missing_razor_payload.
Proof.
  intros Hr Hk Hm. repeat split.
  - apply (verify_missing cfg req razor t Hr).
    exact (payload_present_false razor k Hk Hm).
  - intros req' razor' o p t' Hr' Hp' Ho Hpay Hs.
    exists signature_mismatch. split; [|discriminate].
    rewrite (verify_computed cfg req' razor' o p t' Hr' Hp' Ho Hpay).
    destruct (strict_equal_string _ _) eqn:E; [|reflexivity].
    apply strict_equal_string_spec in E. contradiction.
Qed.

Lemma verify_missing_field_is_distinct_witness :
  verifyRazorpayPayment cfg0 request_without_signature []
  = (Normal missing_razor_payload, []).
Proof.
  refine (proj1 (verify_missing_field_is_distinct cfg0
            request_without_signature
            (VObj [("razorpay_payment_id", VStr "pay_1");
                   ("razorpay_order_id", VStr "order_1")])
            "razorpay_signature" [] _ _ _)).
  - reflexivity.
  - cbn. tauto.
  - reflexivity.
Defined.

Lemma unreadable_alike (v v' : value) (k source : string) (e : value) :
  get v k = get v' k -> get v' k = Throw e ->
  TypeError_destructure k source v = TypeError_destructure k source v'.
Proof.
  unfold TypeError_destructure.
  destruct v, v'; cbn; intros H E; try discriminate; try reflexivity;
    injection H as H; apply (f_equal (fun x => get_opt x "message")) in H;
    cbn in H; injection H as H; repeat (injection H as _ H); discriminate.
Qed.

(** C10.  The answer to a verification request is a function of the
    [razor] payload and of the stored secret: two requests with the same
    [razor] payload get the same completion, status and body, and the same
    trace, whatever their [booking] (and whatever else they carry). *)
Theorem verify_ignores_booking
    (cfg : credentials) (req1 req2 : request) (t : list call) :
  get (body req1) "razor" = get (body req2) "razor" ->
  verifyRazorpayPayment cfg req1 t = verifyRazorpayPayment cfg req2 t.
Proof.
  intros H. unfold verifyRazorpayPayment. plumbing.
  destruct (get (body req2) "razor") as [razor|e] eqn:E2; rewrite H.
  - rewrite (get_total _ _ _ "booking" H), (get_total _ _ _ "booking" E2).
    reflexivity.
  - rewrite (unreadable_alike _ _ _ "req.body" e (eq_trans H (eq_sym E2)) E2).
    reflexivity.
Qed.

Lemma verify_ignores_booking_witness :
  verifyRazorpayPayment cfg0 (verify_request (VStr signature0) VNull) []
  = verifyRazorpayPayment cfg0
      (verify_request (VStr signature0)
         (VObj [("name", VStr "Asha"); ("services", VArr [])])) [].
Proof.
  apply (verify_ignores_booking cfg0). reflexivity.
Defined.

(** ** Validation of the amount *)

Lemma refused_amount_invalid (v : value) :
  refused_amount v -> invalid_amount v = Normal true.
Proof.
  intros [|a n Hn Hnan|a n Hn Hle]; unfold invalid_amount.
  - reflexivity.
  - destruct (ToBoolean a); [|reflexivity]. cbn [negb].
    unfold global_isNaN. rewrite Hn. cbn [bind]. now rewrite Hnan.
  - destruct (ToBoolean a); [|reflexivity]. cbn [negb].
    unfold global_isNaN, Number. rewrite Hn. cbn [bind].
    destruct (isNaN n); [reflexivity|]. now rewrite Hle.
Qed.

Lemma positive_not_refused (n : number) :
  ltb zero n = true -> isNaN n = false /\ leb n zero = false.
Proof.
  destruct n as [s|s| |s m e]; try destruct s; cbn; intros H;
    try discriminate H; split; reflexivity.
Qed.

Lemma positive_truthy (v : value) (n : number) :
  positive_amount v n -> ToBoolean v = true.
Proof.
  intros [Hn Hpos]. unfold Number, ToNumber in Hn.
  destruct v as [| |b|x|s|l|props]; try reflexivity;
    cbn [ToPrimitive bind] in Hn; injection Hn as <-.
  - discriminate Hpos.
  - discriminate Hpos.
  - destruct b; [reflexivity | discriminate Hpos].
  - destruct x as [[|]|[|]| |[|] m e]; try reflexivity; discriminate Hpos.
  - destruct s; [discriminate Hpos | reflexivity].
Qed.

Lemma positive_amount_valid (v : value) (n : number) :
  positive_amount v n -> invalid_amount v = Normal false.
Proof.
  intros H. pose proof (positive_truthy v n H) as Ht.
  destruct H as [Hn Hpos].
  destruct (positive_not_refused n Hpos) as [Hnan Hle].
  unfold invalid_amount, global_isNaN. unfold Number in Hn |- *.
  rewrite Ht, Hn. cbn [negb bind]. now rewrite Hnan, Hle.
Qed.

(** The amounts that pass the validation are the positive ones. *)
Lemma valid_amount_iff_positive (v : value) :
  invalid_amount v = Normal false <-> exists n : number, positive_amount v n.
Proof.
  split.
  - unfold invalid_amount, global_isNaN, Number, positive_amount.
    destruct (ToBoolean v); [|discriminate]. cbn [negb].
    unfold Number. destruct (ToNumber v) as [n|e]; [|discriminate].
    cbn [bind]. destruct (isNaN n) eqn:Hnan; [discriminate|].
    intros H. injection H as H. exists n. split; [reflexivity|].
    destruct n as [[|]|[|]| |[|] m e]; try reflexivity; discriminate.
  - intros [n H]. exact (positive_amount_valid v n H).
Qed.

(** C2.  A request whose amount is missing, is not a number or is not
    above zero is answered with HTTP 400 by each of the three create
    operations, and none of them makes an outbound call: the trace of the
    calls (provider calls and token exchanges) is left as it was. *)
Theorem create_refuses_bad_amount
    (w : world) (cfg : credentials) (lower : string -> string)
    (req : request) (amount : value) (t : list call) :
  get (body req) "amount" = Normal amount ->
  refused_amount amount ->
  createRazorpayOrder w req t = (Normal invalid_amount_rupees, t)
  /\ createStripeSession w lower req t = (Normal invalid_amount_rupees, t)
  /\ createPaypalOrder w cfg req t = (Normal invalid_amount_paypal, t).
Proof.
  intros Ha Hbad. apply refused_amount_invalid in Hbad.
  repeat split.
  - unfold createRazorpayOrder. plumbing.
    now rewrite Ha, (get_total _ _ _ "currency" Ha), Hbad.
  - unfold createStripeSession. plumbing.
    now rewrite (get_total _ _ _ "booking" Ha), Ha,
      (get_total _ _ _ "currency" Ha), Hbad.
  - unfold createPaypalOrder. plumbing.
    now rewrite Ha, (get_total _ _ _ "currency" Ha), Hbad.
Qed.

Lemma create_refuses_bad_amount_witness :
  refused_by_all []
  /\ refused_by_all [("amount", VStr "abc")]
  /\ refused_by_all [("amount", VNum (of_int (-5)))].
Proof.
  split; [|split].
  - apply (create_refuses_bad_amount world0 cfg0 ascii_lower _ VUndefined).
    + reflexivity.
    + exact amount_missing.
  - apply (create_refuses_bad_amount world0 cfg0 ascii_lower _ (VStr "abc")).
    + reflexivity.
    + apply (amount_NaN _ NaN); reflexivity.
  - apply (create_refuses_bad_amount world0 cfg0 ascii_lower _
             (VNum (of_int (-5)))).
    + reflexivity.
    + apply (amount_not_positive _ (of_int (-5))); reflexivity.
Defined.

(** ** Capture *)

(** C6.  A capture request whose [orderId] is missing or empty (it fails
    the presence test) is answered with HTTP 400 and
    [{success: false, error: 'Missing orderId'}]; no token exchange and no
    other outbound call is attempted. *)
Theorem capture_requires_order_id
    (w : world) (cfg : credentials) (req : request) (orderId : value)
    (t : list call) :
  get (body req) "orderId" = Normal orderId ->
  ToBoolean orderId = false ->
  capturePaypalPayment w cfg req t = (Normal missing_order_id, t).
Proof.
  intros Ho Hm. unfold capturePaypalPayment. plumbing.
  now rewrite Ho, Hm.
Qed.

Lemma capture_requires_order_id_witness :
  capturePaypalPayment world0 cfg0
    (create_request "/capture-paypal-payment" [("orderId", VStr "")]) []
  = (Normal missing_order_id, [])
  /\ capturePaypalPayment world0 cfg0
       (create_request "/capture-paypal-payment" []) []
     = (Normal missing_order_id, []).
Proof.
  split.
  - apply (capture_requires_order_id world0 cfg0 _ (VStr "")); reflexivity.
  - apply (capture_requires_order_id world0 cfg0 _ VUndefined); reflexivity.
Defined.

(** ** Health *)

Lemma health_route
    (w : world) (cfg : credentials) (lower : string -> string)
    (req : request) :
  method req = "GET" ->
  route_matches "/health" (path req) = true ->
  express_static w req = None ->
  serve w cfg lower req = (Normal health_ok, []).
Proof.
  intros Hm Hp Hs. unfold serve, app. rewrite Hm, Hp, Hs. reflexivity.
Qed.




(** ** [Math.round] rounds half up *)

Lemma to_Q_shifted (s : bool) (a k : Z) :
  0 < a -> 0 <= k ->
  (to_Q (S754_finite s (Z.to_pos (a * 2 ^ k)) (- k))
   == inject_Z (cond_Zopp s a))%Q.
Proof.
  intros Ha Hk.
  assert (Hm : 0 < a * 2 ^ k).
  { apply Z.mul_pos_pos; [lia | now apply Z.pow_pos_nonneg]. }
  unfold to_Q. rewrite Z2Pos.id by exact Hm.
  assert (Hs : cond_Zopp s (a * 2 ^ k) = cond_Zopp s a * 2 ^ k).
  { destruct s; cbn [cond_Zopp]; lia. }
  rewrite Hs.
  destruct k as [|kp|kp]; cbn [Z.opp]; [| |lia].
  - now rewrite Z.pow_0_r, !Z.mul_1_r.
  - unfold Qeq. cbn [Qnum Qden inject_Z]. rewrite Pos2Z.inj_pow. lia.
Qed.

Lemma to_Q_of_int (z : Z) : (to_Q (of_int z) == inject_Z z)%Q.
Proof.
  unfold of_int.
  destruct z as [|q|q]; [reflexivity| |];
    rewrite to_Q_shifted by (try apply Z.le_max_l; cbn; lia);
    reflexivity.
Qed.

Lemma round_half_up_spec (s : bool) (m : positive) (e : Z) :
  let x := S754_finite s m e in
  (inject_Z (round_half_up x) - (1 # 2) <= to_Q x
   /\ to_Q x < inject_Z (round_half_up x) + (1 # 2))%Q.
Proof.
  cbn zeta. unfold round_half_up, to_Q.
  set (sm := cond_Zopp s (Z.pos m)).
  destruct e as [|p|p].
  - unfold Qle, Qlt; cbn; lia.
  - unfold Qle, Qlt; cbn; lia.
  - set (D := Z.pos (2 ^ p)).
    pose proof (Z.div_mod (2 * sm + D) (2 * D) ltac:(lia)) as Hd.
    pose proof (Z.mod_pos_bound (2 * sm + D) (2 * D) ltac:(lia)) as Hb.
    set (r := (2 * sm + D) / (2 * D)) in *.
    unfold Qle, Qlt. cbn [Qnum Qden Qminus Qplus Qopp inject_Z Qmult].
    fold D. split; nia.
Qed.

Lemma Math_round_value (x : number) :
  (to_Q (Math_round x) == inject_Z (round_half_up x))%Q.
Proof.
  destruct x as [s|s| |s m e]; try reflexivity.
  destruct e as [|p|p]; try reflexivity.
  unfold Math_round.
  destruct (Z.eqb_spec (round_half_up (S754_finite s m (Z.neg p))) 0) as [->|_].
  - reflexivity.
  - apply to_Q_of_int.
Qed.

(** ** What the create handlers send *)

Lemma minor_units_positive (v : value) (n : number) :
  positive_amount v n ->
  minor_units v = Normal (Math_round (mul n (of_int 100))).
Proof. intros [Hn _]. unfold minor_units. now rewrite Hn. Qed.

Lemma append_inj (a b c : string) : a ++ b = a ++ c -> b = c.
Proof.
  induction a as [|x a IH]; cbn; intros H; [exact H|].
  injection H as H. exact (IH H).
Qed.

Lemma booking_label_read (booking services : value) :
  get booking "services" = Normal services ->
  match services with
  | VArr l => let! names := map_name l in Array_join ", " names
  | _ => let! name := get booking "name" in
         ToString (or_else name (VStr "Customer"))
  end = booking_label booking.
Proof.
  intros Hs. rewrite (get_total _ _ _ "name" Hs).
  apply get_get_opt in Hs; subst services.
  unfold booking_label. destruct (get_opt booking "services"); reflexivity.
Qed.

(** Every session the card gateway is asked to create carries the minor
    units of the amount and the label of the booking. *)
Lemma stripe_call_inv (w : world) (lower : string -> string)
    (req : request) (params : value) :
  In (stripe_checkout_sessions_create params)
     (snd (createStripeSession w lower req [])) ->
  exists (unitAmount : number) (label : string),
    minor_units (get_opt (body req) "amount") = Normal unitAmount
    /\ booking_label (booking_of req) = Normal label
    /\ unit_amount_of params = VNum unitAmount
    /\ product_name_of params = VStr ("Booking: " ++ label).
Proof.
  unfold createStripeSession, booking_of. plumbing.
  destruct (get (body req) "booking") as [b|e] eqn:Eb;
    [|cbn; contradiction].
  rewrite (get_total _ _ _ "amount" Eb), (get_total _ _ _ "currency" Eb).
  apply get_get_opt in Eb; subst b.
  destruct (invalid_amount _) as [[|]|e];
    [cbn; contradiction| |cbn; contradiction].
  destruct (minor_units _) as [unitAmount|e] eqn:Eu; [|cbn; contradiction].
  destruct (ToString _) as [origin|e]; [|cbn; contradiction].
  destruct (toLowerCase _ _) as [lowered|e]; [|cbn; contradiction].
  destruct (get _ "services") as [services|e] eqn:Es; [|cbn; contradiction].
  rewrite (booking_label_read _ _ Es).
  destruct (booking_label _) as [label|e] eqn:El; [|cbn; contradiction].
  intros H. exists unitAmount, label.
  repeat split; try reflexivity;
    revert H; repeat (step; cbn [fst snd app]); cbn [In];
    intros [H|[]]; injection H as <-; reflexivity.
Qed.

Lemma map_name_spec (l names : list value) :
  map_name l = Normal names ->
  names = map (fun s => get_opt s "name") l.
Proof.
  revert names. induction l as [|s r IH]; cbn [map_name map]; intros names H.
  - now injection H as <-.
  - destruct (get s "name") as [name|e] eqn:En; [|discriminate H].
    cbn [bind] in H.
    destruct (map_name r) as [names'|e]; [|discriminate H].
    cbn [bind] in H. injection H as <-.
    apply get_get_opt in En. now rewrite En, (IH names').
Qed.

(** C8.  In every session the card gateway is asked to create, the
    product name of the line item is [Booking: ] followed by: the names of
    the services joined with [, ] when [booking.services] is an array;
    otherwise [booking.name] when it is present (truthy); otherwise
    [Customer]. *)
Theorem stripe_product_name
    (w : world) (lower : string -> string) (req : request) (params : value) :
  In (stripe_checkout_sessions_create params)
     (snd (createStripeSession w lower req [])) ->
  match get_opt (booking_of req) "services" with
  | VArr services =>
      exists joined : string,
        Array_join ", " (map (fun s => get_opt s "name") services)
        = Normal joined
        /\ product_name_of params = VStr ("Booking: " ++ joined)
  | _ =>
      if ToBoolean (get_opt (booking_of req) "name")
      then exists name : string,
             ToString (get_opt (booking_of req) "name") = Normal name
             /\ product_name_of params = VStr ("Booking: " ++ name)
      else product_name_of params = VStr "Booking: Customer"
  end.
Proof.
  intros H.
  destruct (stripe_call_inv w lower req params H)
    as (unitAmount & label & _ & Hl & _ & Hn).
  unfold booking_label, or_else in Hl.
  destruct (get_opt (booking_of req) "services") as [| |b|x|s|services|props];
    try (destruct (ToBoolean (get_opt (booking_of req) "name"));
         [exists label; now split
         | cbn in Hl; injection Hl as <-; exact Hn]).
  destruct (map_name services) as [names|e] eqn:En; [|discriminate Hl].
  cbn [bind] in Hl. apply map_name_spec in En. subst names.
  exists label. now split.
Qed.

Lemma stripe_product_name_witness :
  exists joined : string,
    Array_join ", " [VStr "Hair"; VStr "Makeup"] = Normal joined
    /\ product_name_of (stripe_params (booking_request two_services))
       = VStr ("Booking: " ++ joined).
Proof.
  refine (stripe_product_name world0 ascii_lower
            (booking_request two_services)
            (stripe_params (booking_request two_services)) _).
  vm_compute. left. reflexivity.
Defined.

(** ** Credentials of the wallet gateway *)

Lemma getPaypalToken_missing (w : world) (cfg : credentials) (t : list call) :
  credentials_missing cfg ->
  getPaypalToken w cfg t = (Throw (Error "PayPal credentials missing"), t).
Proof.
  intros [H|H]; unfold getPaypalToken; rewrite H; cbn [String.eqb orb];
    rewrite ?orb_true_r; reflexivity.
Qed.

(** C7, as the code has it.  With the client id or the client secret
    absent, a wallet-gateway operation whose request passes validation (a
    positive amount for the creation of an order, a present order id for a
    capture) is answered with HTTP 500 and a JSON body whose details are
    'PayPal credentials missing'; the handler completes, and no outbound
    call at all is made. *)
Theorem wallet_fails_without_credentials
    (w : world) (cfg : credentials) (req : request) (t : list call) :
  credentials_missing cfg ->
  (forall (amount : value) (n : number),
      get (body req) "amount" = Normal amount ->
      positive_amount amount n ->
      createPaypalOrder w cfg req t = (Normal paypal_create_failed, t))
  /\ (forall orderId : value,
        get (body req) "orderId" = Normal orderId ->
        ToBoolean orderId = true ->
        capturePaypalPayment w cfg req t = (Normal paypal_capture_failed, t)).
Proof.
  intros Hc. split.
  - intros amount n Ha Hpos. unfold createPaypalOrder. plumbing.
    rewrite Ha, (get_total _ _ _ "currency" Ha),
      (positive_amount_valid _ _ Hpos).
    cbn beta iota. now rewrite (getPaypalToken_missing w cfg t Hc).
  - intros orderId Ho Hp. unfold capturePaypalPayment. plumbing.
    rewrite Ho, Hp. cbn [negb].
    now rewrite (getPaypalToken_missing w cfg t Hc).
Qed.

Lemma wallet_fails_without_credentials_witness :
  createPaypalOrder world0 no_credentials
    (create_request "/create-paypal-order" [("amount", VNum (of_int 500))]) []
  = (Normal paypal_create_failed, [])
  /\ capturePaypalPayment world0 no_credentials
       (create_request "/capture-paypal-payment"
          [("orderId", VStr "5O190127TN364715T")]) []
     = (Normal paypal_capture_failed, []).
Proof.
  split.
  - refine (proj1 (wallet_fails_without_credentials world0 no_credentials
                     _ [] _) (VNum (of_int 500)) (of_int 500) _ _).
    + left. reflexivity.
    + reflexivity.
    + split; reflexivity.
  - refine (proj2 (wallet_fails_without_credentials world0 no_credentials
                     _ [] _) (VStr "5O190127TN364715T") _ _).
    + left. reflexivity.
    + reflexivity.
    + reflexivity.
Defined.

(** C7, as stated, fails: without credentials, a create-order request with
    no amount is answered 400 by the validation that comes first, not 500. *)
Lemma wallet_validation_precedes_credentials :
  credentials_missing no_credentials
  /\ exists r : response,
       createPaypalOrder world0 no_credentials
         (create_request "/create-paypal-order" []) [] = (Normal r, [])
       /\ status r = 400
       /\ status r <> 500.
Proof.
  split; [left; reflexivity|].
  exists invalid_amount_paypal. repeat split. discriminate.
Qed.

(** ** Conversion of the amount *)

Lemma round_half_up_bounds (x : number) :
  is_finite x = true ->
  (inject_Z (round_half_up x) - (1 # 2) <= to_Q x
   /\ to_Q x < inject_Z (round_half_up x) + (1 # 2))%Q.
Proof.
  destruct x as [s|s| |s m e]; intros H; try discriminate H.
  - split; [discriminate | reflexivity].
  - apply round_half_up_spec.
Qed.

(** 100.5 major units are 10050 minor units, and the text [100.5]. *)
Example minor_units_of_100_5 :
  minor_units (VNum hundred_and_a_half) = Normal (of_int 10050)
  /\ round_half_up (mul hundred_and_a_half (of_int 100)) = 10050
  /\ String_ (VNum hundred_and_a_half) = Normal "100.5".
Proof. vm_compute. repeat split. Qed.

(** The three create handlers on the amount 100.5: what is sent. *)
Example razorpay_order_for_100_5 :
  snd (createRazorpayOrder world0 (request_100_5 "/create-razorpay-order") [])
  = [razorpay_orders_create (VObj
       [("amount", VNum (of_int 10050));
        ("currency", VStr "INR");
        ("receipt", VStr "booking_1700000000000");
        ("payment_capture", VNum (of_int 1))])].
Proof. vm_compute. reflexivity. Qed.

Example stripe_session_for_100_5 :
  exists params : value,
    snd (createStripeSession world0 ascii_lower
           (request_100_5 "/create-stripe-session") [])
    = [stripe_checkout_sessions_create params]
    /\ unit_amount_of params = VNum (of_int 10050)
    /\ product_name_of params = VStr "Booking: Customer"
    /\ get_opt params "success_url"
       = VStr "https://npbeauty.example/success.html"
    /\ get_opt params "metadata" = VObj [("booking", VStr "{}")].
Proof. eexists. vm_compute. repeat split. Qed.

Example paypal_order_for_100_5 :
  exists (token data config : value),
    snd (createPaypalOrder world0 cfg0 (request_100_5 "/create-paypal-order") [])
    = [axios_post "https://api-m.sandbox.paypal.com/v1/oauth2/token"
         (VStr "grant_type=client_credentials") token;
       axios_post "https://api-m.sandbox.paypal.com/v2/checkout/orders"
         data config]
    /\ purchase_value_of data = VStr "100.5"
    /\ get_opt (get_opt token "headers") "Authorization"
       = VStr "Basic aWQ6c2VjcmV0".
Proof. do 3 eexists. vm_compute. repeat split. Qed.

(** The end-to-end scenario of the specification: 500 rupees are 50000
    paise in the order the regional gateway returns. *)
Example razorpay_order_for_500 :
  serve world0 cfg0 ascii_lower
    (create_request "/create-razorpay-order"
       [("amount", VNum (of_int 500)); ("currency", VStr "INR")])
  = (Normal (Response 200 (Json (VObj
       [("id", VStr "order_1"); ("amount", VNum (of_int 50000))]))),
     [razorpay_orders_create (VObj
        [("amount", VNum (of_int 50000));
         ("currency", VStr "INR");
         ("receipt", VStr "booking_1700000000000");
         ("payment_capture", VNum (of_int 1))])]).
Proof. vm_compute. reflexivity. Qed.

(** Test vectors of the primitives. *)
Example sha256_abc :
  hex (sha256 (bytes_of_string "abc"))
  = "ba7816bf8f01cfea414140de5dae2223b00361a396177a9cb410ff61f20015ad".
Proof. vm_compute. reflexivity. Qed.

Example hmac_sha256_rfc4231_case2 :
  createHmac_sha256_hex "Jefe" "what do ya want for nothing?"
  = "5bdcc146bf60754e6a042426089575c75a003f089d2739839dec58b964ec3843".
Proof. vm_compute. reflexivity. Qed.

Example number_texts :
  map (fun s => toString (StringToNumber s))
    ["100.5"; "0.1"; "1e21"; "1e-7"; "0x1F"; " 12 "; ""; "abc"; "-0"]
  = ["100.5"; "0.1"; "1e+21"; "1e-7"; "31"; "12"; "0"; "NaN"; "0"].
Proof. vm_compute. reflexivity. Qed.

(* ================================================================== *)
(** * Further properties of the handlers *)
(* ================================================================== *)

(** ** Verification *)

(** The paths of the verification handler. *)
Lemma verify_runs (cfg : credentials) (req : request) (t : list call) :
  match get (body req) "razor" with
  | Throw _ =>
      verifyRazorpayPayment cfg req t
      = (Normal (verify_failed
                   (TypeError_destructure "razor" "req.body" (body req))), t)
  | Normal razor =>
      if payload_present razor then
        match ToString (get_opt razor "razorpay_order_id") with
        | Throw e =>
            verifyRazorpayPayment cfg req t = (Normal (verify_failed e), t)
        | Normal o =>
            match ToString (get_opt razor "razorpay_payment_id") with
            | Throw e =>
                verifyRazorpayPayment cfg req t
                = (Normal (verify_failed e), t)
            | Normal p =>
                verifyRazorpayPayment cfg req t
                = (Normal
                     (if strict_equal_string
                           (createHmac_sha256_hex (RAZORPAY_KEY_SECRET cfg)
                              (o ++ "|" ++ p))
                           (get_opt razor "razorpay_signature")
                      then verified else signature_mismatch), t)
            end
        end
      else verifyRazorpayPayment cfg req t = (Normal missing_razor_payload, t)
  end.
Proof.
  destruct (get (body req) "razor") as [razor|e] eqn:Hr.
  - destruct (payload_present razor) eqn:Hp.
    + destruct (ToString (get_opt razor "razorpay_order_id")) as [o|e] eqn:Ho.
      * destruct (ToString (get_opt razor "razorpay_payment_id"))
          as [p|e] eqn:Hpay.
        -- exact (verify_computed cfg req razor o p t Hr Hp Ho Hpay).
        -- unfold verifyRazorpayPayment. plumbing.
           rewrite Hr, (get_total _ _ _ "booking" Hr).
           unfold payload_present in Hp.
           apply andb_prop in Hp as [Hp H4]. apply andb_prop in Hp as [Hp H3].
           apply andb_prop in Hp as [H1 H2].
           rewrite H1, H2, H3, H4, Ho, Hpay. reflexivity.
      * unfold verifyRazorpayPayment. plumbing.
        rewrite Hr, (get_total _ _ _ "booking" Hr).
        unfold payload_present in Hp.
        apply andb_prop in Hp as [Hp H4]. apply andb_prop in Hp as [Hp H3].
        apply andb_prop in Hp as [H1 H2].
        rewrite H1, H2, H3, H4, Ho. reflexivity.
    + exact (verify_missing cfg req razor t Hr Hp).
  - unfold verifyRazorpayPayment. plumbing. rewrite Hr. reflexivity.
Qed.

(** X1.  The handler answers 200 only to a signed payload: the three
    fields are present, the message [orderId|paymentId] was formed, and the
    signature is the string of the digest computed under the stored
    secret. *)
Theorem verify_success_only_if_signed
    (cfg : credentials) (req : request) (t t' : list call) (r : response) :
  verifyRazorpayPayment cfg req t = (Normal r, t') ->
  status r = 200 ->
  exists (razor : value) (o p : string),
    get (body req) "razor" = Normal razor
    /\ payload_present razor = true
    /\ ToString (get_opt razor "razorpay_order_id") = Normal o
    /\ ToString (get_opt razor "razorpay_payment_id") = Normal p
    /\ get_opt razor "razorpay_signature"
       = VStr (createHmac_sha256_hex (RAZORPAY_KEY_SECRET cfg)
                 (o ++ "|" ++ p)).
Proof.
  intros Hrun Hs. pose proof (verify_runs cfg req t) as H.
  destruct (get (body req) "razor") as [razor|e] eqn:Hr;
    [|rewrite H in Hrun; injection Hrun as <- _; discriminate Hs].
  destruct (payload_present razor) eqn:Hp;
    [|rewrite H in Hrun; injection Hrun as <- _; discriminate Hs].
  destruct (ToString (get_opt razor "razorpay_order_id")) as [o|e] eqn:Ho;
    [|rewrite H in Hrun; injection Hrun as <- _; discriminate Hs].
  destruct (ToString (get_opt razor "razorpay_payment_id")) as [p|e] eqn:Hpay;
    [|rewrite H in Hrun; injection Hrun as <- _; discriminate Hs].
  rewrite H in Hrun. injection Hrun as <- _.
  destruct (strict_equal_string _ _) eqn:E; [|discriminate Hs].
  apply strict_equal_string_spec in E.
  exists razor, o, p. repeat split; assumption.
Qed.

Lemma verify_success_only_if_signed_witness :
  exists (razor : value) (o p : string),
    get (body (verify_request (VStr signature0) VNull)) "razor" = Normal razor
    /\ payload_present razor = true
    /\ ToString (get_opt razor "razorpay_order_id") = Normal o
    /\ ToString (get_opt razor "razorpay_payment_id") = Normal p
    /\ get_opt razor "razorpay_signature"
       = VStr (createHmac_sha256_hex (RAZORPAY_KEY_SECRET cfg0)
                 (o ++ "|" ++ p)).
Proof.
  refine (verify_success_only_if_signed cfg0
            (verify_request (VStr signature0) VNull) [] [] verified _ _).
  - vm_compute. reflexivity.
  - reflexivity.
Defined.

(** X2.  The verification handler always answers, with 200, 400 or 500,
    and never calls a provider: the trace is left as it was. *)
Theorem verify_always_answers_offline
    (cfg : credentials) (req : request) (t : list call) :
  exists r : response,
    verifyRazorpayPayment cfg req t = (Normal r, t) /\ known_status r.
Proof.
  pose proof (verify_runs cfg req t) as H. unfold known_status.
  destruct (get (body req) "razor") as [razor|e];
    [|eexists; split; [exact H | cbn; tauto]].
  destruct (payload_present razor);
    [|eexists; split; [exact H | cbn; tauto]].
  destruct (ToString (get_opt razor "razorpay_order_id")) as [o|e];
    [|eexists; split; [exact H | cbn; tauto]].
  destruct (ToString (get_opt razor "razorpay_payment_id")) as [p|e];
    [|eexists; split; [exact H | cbn; tauto]].
  eexists; split; [exact H|].
  destruct (strict_equal_string _ _); cbn; tauto.
Qed.

(** ** What the run time throws *)

Lemma value_induction (P : value -> Prop) :
  P VUndefined -> P VNull ->
  (forall b : bool, P (VBool b)) ->
  (forall n : number, P (VNum n)) ->
  (forall s : string, P (VStr s)) ->
  (forall l : list value, Forall P l -> P (VArr l)) ->
  (forall props : list (string * value),
      Forall (fun kv => P (snd kv)) props -> P (VObj props)) ->
  forall v : value, P v.
Proof.
  intros H1 H2 H3 H4 H5 H6 H7. fix IH 1.
  intros [| |b|n|s|l|props];
    [exact H1 | exact H2 | apply H3 | apply H4 | apply H5 | |].
  - apply H6. revert l. fix IHl 1.
    intros [|x r]; constructor; [apply IH | apply IHl].
  - apply H7. revert props. fix IHp 1.
    intros [|[k x] r]; constructor; [apply IH | apply IHp].
Qed.

(** The conversion to a string throws one thing only: the TypeError of an
    object that hides [toString]. *)
Lemma ToString_throws (v e : value) :
  ToString v = Throw e -> e = TypeError_to_primitive.
Proof.
  revert e. induction v as [| |b|n|s|l IH|props _] using value_induction;
    intros e; cbn [ToString]; try discriminate.
  - induction IH as [|x r Hx _ IHr]; [discriminate|].
    assert (Hhead :
      forall e', match x with
                 | VUndefined | VNull => Normal ""
                 | _ => ToString x
                 end = Throw e' -> e' = TypeError_to_primitive).
    { intros e'. destruct x; try discriminate; apply Hx. }
    destruct (match x with VUndefined | VNull => Normal "" | _ => ToString x end)
      as [sx|ex] eqn:Ex; cbn [bind].
    + destruct r as [|y r']; [discriminate|].
      match goal with
      | |- bind ?c _ = _ -> _ => destruct c as [sr|er] eqn:Er
      end; cbn [bind]; [discriminate|].
      intros H. injection H as <-. now apply IHr.
    + intros H. injection H as <-. now apply Hhead.
  - destruct (has_own "toString" props); [|discriminate].
    intros H. now injection H as <-.
Qed.

Lemma ToNumber_throws (v e : value) :
  ToNumber v = Throw e -> e = TypeError_to_primitive.
Proof.
  unfold ToNumber, ToPrimitive.
  destruct v; cbn [bind]; try discriminate;
    match goal with
    | |- context [ToString ?x] => destruct (ToString x) as [s'|e'] eqn:E
    end; cbn [bind]; try discriminate;
    intros H; injection H as <-; exact (ToString_throws _ _ E).
Qed.

Lemma invalid_amount_throws (v e : value) :
  invalid_amount v = Throw e -> e = TypeError_to_primitive.
Proof.
  unfold invalid_amount, global_isNaN, Number.
  destruct (ToBoolean v); cbn [negb]; [|discriminate].
  destruct (ToNumber v) as [n|e'] eqn:E; cbn [bind].
  - destruct (isNaN n); discriminate.
  - intros H. injection H as <-. exact (ToNumber_throws _ _ E).
Qed.

Lemma get_throws (v e : value) (k : string) :
  get v k = Throw e -> e = TypeError_not_coercible k v /\ nullish v = true.
Proof.
  destruct v; cbn; intros H; try discriminate H;
    injection H as <-; split; reflexivity.
Qed.

(** ** The regional gateway *)

(** The argument of [console.error] in the [catch] block of
    [createRazorpayOrder] evaluates, for an error that is not nullish. *)
Lemma razorpay_log_argument (err : value) :
  nullish err = false ->
  exists v : value,
    (let data := get_opt (get_opt err "response") "data" in
     if ToBoolean data then Normal data
     else let! message := get err "message" in Normal (or_else message err))
    = Normal v.
Proof.
  intros H. cbn zeta.
  destruct (ToBoolean (get_opt (get_opt err "response") "data"));
    [eexists; reflexivity|].
  destruct err; try discriminate H; cbn; eexists; reflexivity.
Qed.

Lemma razorpay_log_argument_nullish (err : value) :
  nullish err = true ->
  (let data := get_opt (get_opt err "response") "data" in
   if ToBoolean data then Normal data
   else let! message := get err "message" in Normal (or_else message err))
  = Throw (TypeError_not_coercible "message" err).
Proof. destruct err; intros H; try discriminate H; reflexivity. Qed.

Lemma razorpay_caught (w : world) (req : request) (e : value) (t : list call) :
  nullish e = false ->
  (destructure (body req) "amount" = Throw e
   \/ exists amount : value,
        get (body req) "amount" = Normal amount
        /\ invalid_amount amount = Throw e) ->
  createRazorpayOrder w req t = (Normal (razorpay_failed e), t).
Proof.
  intros He H. destruct (razorpay_log_argument e He) as [v Hv].
  unfold createRazorpayOrder. plumbing.
  destruct H as [H|(amount & Ha & H)].
  - unfold destructure in H. rewrite H. cbn zeta in Hv. rewrite Hv.
    reflexivity.
  - rewrite Ha, (get_total _ _ _ "currency" Ha), H.
    cbn zeta in Hv. rewrite Hv. reflexivity.
Qed.

(** The run of the handler on a positive amount. *)
Lemma razorpay_valid (w : world) (req : request) (amount : value)
    (n : number) (t : list call) :
  get (body req) "amount" = Normal amount ->
  positive_amount amount n ->
  createRazorpayOrder w req t
  = (match settle w (razorpay_call w req n) with
     | Normal order => Normal (res_json order)
     | Throw err =>
         if nullish err then Throw (TypeError_not_coercible "message" err)
         else Normal (razorpay_failed err)
     end, (t ++ [razorpay_call w req n])%list).
Proof.
  intros Ha Hpos. unfold createRazorpayOrder. plumbing.
  rewrite Ha, (get_total _ _ _ "currency" Ha),
    (positive_amount_valid _ _ Hpos), (minor_units_positive _ _ Hpos).
  fold (currency_of req).
  fold (razorpay_options w req (Math_round (mul n (of_int 100)))).
  fold (razorpay_call w req n).
  destruct (settle w (razorpay_call w req n)) as [order|err]; [reflexivity|].
  destruct (nullish err) eqn:Hn.
  - pose proof (razorpay_log_argument_nullish err Hn) as Hv.
    cbn zeta in Hv. rewrite Hv. reflexivity.
  - destruct (razorpay_log_argument err Hn) as [v Hv].
    cbn zeta in Hv. rewrite Hv. reflexivity.
Qed.

Lemma razorpay_invalid (w : world) (req : request) (amount : value)
    (t : list call) :
  get (body req) "amount" = Normal amount ->
  invalid_amount amount = Normal true ->
  createRazorpayOrder w req t = (Normal invalid_amount_rupees, t).
Proof.
  intros Ha Hi. unfold createRazorpayOrder. plumbing.
  now rewrite Ha, (get_total _ _ _ "currency" Ha), Hi.
Qed.

(** Every run of the handler: an error caught before any call, a refused
    amount, or one call for a positive amount. *)
Lemma razorpay_cases (w : world) (req : request) (t : list call) :
  (exists e : value,
      nullish e = false
      /\ createRazorpayOrder w req t = (Normal (razorpay_failed e), t))
  \/ createRazorpayOrder w req t = (Normal invalid_amount_rupees, t)
  \/ exists (amount : value) (n : number),
       get (body req) "amount" = Normal amount
       /\ positive_amount amount n
       /\ createRazorpayOrder w req t
          = (match settle w (razorpay_call w req n) with
             | Normal order => Normal (res_json order)
             | Throw err =>
                 if nullish err
                 then Throw (TypeError_not_coercible "message" err)
                 else Normal (razorpay_failed err)
             end, (t ++ [razorpay_call w req n])%list).
Proof.
  destruct (get (body req) "amount") as [amount|e] eqn:Ha.
  - destruct (invalid_amount amount) as [[|]|e] eqn:Hi.
    + right; left. exact (razorpay_invalid w req amount t Ha Hi).
    + right; right. apply valid_amount_iff_positive in Hi as [n Hpos].
      exists amount, n. split; [reflexivity|]. split; [exact Hpos|].
      exact (razorpay_valid w req amount n t Ha Hpos).
    + left. exists e.
      assert (He : nullish e = false).
      { now rewrite (invalid_amount_throws _ _ Hi). }
      split; [exact He|]. apply razorpay_caught; [exact He|].
      right. now exists amount.
  - left. exists (TypeError_destructure "amount" "req.body" (body req)).
    split; [reflexivity|]. apply razorpay_caught; [reflexivity|].
    left. unfold destructure. now rewrite Ha.
Qed.

(** X3.  For a positive amount the handler makes exactly one call, the
    creation of an order of [Math.round(amount * 100)] in the currency of
    the request ([INR] by default), and relays the provider: its order as
    it is with 200, or 500 with the message of the rejection (the
    rejection itself when it has none). *)
Theorem razorpay_relays_provider
    (w : world) (req : request) (amount : value) (n : number)
    (t : list call) :
  get (body req) "amount" = Normal amount ->
  positive_amount amount n ->
  (forall order : value,
      settle w (razorpay_call w req n) = Normal order ->
      createRazorpayOrder w req t
      = (Normal (Response 200 (Json order)), (t ++ [razorpay_call w req n])%list))
  /\ (forall err : value,
        settle w (razorpay_call w req n) = Throw err ->
        nullish err = false ->
        createRazorpayOrder w req t
        = (Normal (razorpay_failed err),
           (t ++ [razorpay_call w req n])%list)).
Proof.
  intros Ha Hpos. pose proof (razorpay_valid w req amount n t Ha Hpos) as H.
  split.
  - intros order Hs. now rewrite Hs in H.
  - intros err Hs Hn. now rewrite Hs, Hn in H.
Qed.

(** X4.  When the provider rejects with [undefined] or [null], the
    [catch] block itself throws while it builds its log line
    ([err.message] is read without [?.]): the handler throws a TypeError
    and sends no response. *)
Theorem razorpay_nullish_rejection_unanswered
    (w : world) (req : request) (amount : value) (n : number)
    (err : value) (t : list call) :
  get (body req) "amount" = Normal amount ->
  positive_amount amount n ->
  settle w (razorpay_call w req n) = Throw err ->
  nullish err = true ->
  createRazorpayOrder w req t
  = (Throw (TypeError_not_coercible "message" err),
     (t ++ [razorpay_call w req n])%list).
Proof.
  intros Ha Hpos Hs Hn.
  rewrite (razorpay_valid w req amount n t Ha Hpos). now rewrite Hs, Hn.
Qed.

(** X5.  Whatever the request, the regional gateway is called at most
    once, and only with an order built from a positive amount. *)
Theorem razorpay_calls_only_valid_orders
    (w : world) (req : request) :
  (List.length (snd (createRazorpayOrder w req [])) <= 1)%nat
  /\ forall c : call,
       In c (snd (createRazorpayOrder w req [])) ->
       exists (amount : value) (n : number),
         get (body req) "amount" = Normal amount
         /\ positive_amount amount n
         /\ c = razorpay_call w req n.
Proof.
  destruct (razorpay_cases w req [])
    as [(e & _ & H) | [H | (amount & n & Ha & Hpos & H)]]; rewrite H.
  - split; [cbn; lia | intros c []].
  - split; [cbn; lia | intros c []].
  - split; [cbn; lia|]. cbn [snd app In]. intros c [<- | []].
    now exists amount, n.
Qed.


(** ** The minor units are never negative *)

Lemma shr_1_nonneg (mrs : shr_record) :
  0 <= shr_m mrs -> 0 <= shr_m (shr_1 mrs).
Proof.
  destruct mrs as [m r s]. cbn [shr_m]. intros H.
  destruct m as [|[p|p|]|p]; cbn; lia.
Qed.

Lemma iter_shr_1_nonneg (p : positive) (mrs : shr_record) :
  0 <= shr_m mrs -> 0 <= shr_m (iter_pos shr_1 p mrs).
Proof.
  revert mrs. induction p as [p IH|p IH|]; intros mrs H; cbn [iter_pos].
  - apply IH, IH, shr_1_nonneg, H.
  - apply IH, IH, H.
  - apply shr_1_nonneg, H.
Qed.

Lemma shr_fexp_nonneg (m e : Z) (l : location) :
  0 <= m -> 0 <= shr_m (fst (shr_fexp prec emax m e l)).
Proof.
  intros H. unfold shr_fexp, shr.
  assert (H0 : 0 <= shr_m (shr_record_of_loc m l)).
  { destruct l as [|[| |]]; exact H. }
  destruct (fexp prec emax (Zdigits2 m + e) - e) as [|p|p]; cbn [fst];
    [exact H0 | now apply iter_shr_1_nonneg | exact H0].
Qed.

Lemma round_nearest_even_nonneg (m : Z) (l : location) :
  0 <= m -> 0 <= round_nearest_even m l.
Proof.
  intros H. destruct l as [|[| |]]; cbn; try lia.
  destruct (Z.even m); lia.
Qed.

(** The sign of a finite product is the one it is given: the rounding
    never yields a NaN nor changes the sign. *)
Lemma binary_round_aux_sign (s : bool) (m : positive) (e : Z) :
  match binary_round_aux prec emax s (Zpos m) e loc_Exact with
  | S754_zero s' | S754_infinity s' | S754_finite s' _ _ => s' = s
  | S754_nan => False
  end.
Proof.
  unfold binary_round_aux.
  pose proof (shr_fexp_nonneg (Zpos m) e loc_Exact ltac:(lia)) as H1.
  destruct (shr_fexp prec emax (Zpos m) e loc_Exact) as [mrs' e'].
  cbn [fst] in H1.
  pose proof (shr_fexp_nonneg
                (round_nearest_even (shr_m mrs') (loc_of_shr_record mrs'))
                e' loc_Exact
                (round_nearest_even_nonneg _ _ H1)) as H2.
  destruct (shr_fexp prec emax _ e' loc_Exact) as [mrs'' e''].
  cbn [fst] in H2.
  destruct (shr_m mrs'') as [|p|p]; [reflexivity| |lia].
  destruct (e'' <=? emax - prec); reflexivity.
Qed.

(** A Number above zero times 100: +0, above zero, or +Infinity. *)
Lemma positive_times_100 (n : number) :
  ltb zero n = true ->
  match mul n (of_int 100) with
  | S754_zero s | S754_infinity s | S754_finite s _ _ => s = false
  | S754_nan => False
  end.
Proof.
  intros H. destruct n as [[|]|[|]| |[|] m e]; try discriminate H.
  - reflexivity.
  - exact (binary_round_aux_sign false _ _).
Qed.

(** X7.  The minor units of a positive amount are never negative and
    never NaN: they are +Infinity, or a finite Number that is an integer at
    least zero. *)
Theorem minor_units_not_negative (amount : value) (n : number) :
  positive_amount amount n ->
  exists minor : number,
    minor_units amount = Normal minor
    /\ (minor = S754_infinity false
        \/ exists r : Z,
             0 <= r /\ is_finite minor = true
             /\ (to_Q minor == inject_Z r)%Q).
Proof.
  intros Hpos. exists (Math_round (mul n (of_int 100))).
  split; [exact (minor_units_positive _ _ Hpos)|].
  pose proof (positive_times_100 n (proj2 Hpos)) as Hs.
  pose proof (Math_round_value (mul n (of_int 100))) as Hv.
  destruct (mul n (of_int 100)) as [s|s| |s m e]; try contradiction; subst s.
  - right. exists 0. repeat split. lia.
  - now left.
  - right. exists (round_half_up (S754_finite false m e)).
    split; [|split; [|exact Hv]].
    + cbn [round_half_up cond_Zopp]. destruct e as [|p|p]; try lia.
      apply Z.div_pos; lia.
    + unfold Math_round. destruct e as [|p|p]; try reflexivity.
      destruct (_ =? 0); [reflexivity|].
      unfold of_int. destruct (round_half_up _); reflexivity.
Qed.

Lemma tiny_product_rounds_to_zero (n : number) :
  ltb zero n = true ->
  is_finite (mul n (of_int 100)) = true ->
  (to_Q (mul n (of_int 100)) < 1 # 2)%Q ->
  Math_round (mul n (of_int 100)) = S754_zero false.
Proof.
  intros Hpos Hfin Hlt. pose proof (positive_times_100 n Hpos) as Hs.
  destruct (mul n (of_int 100)) as [s|s| |s m e];
    try discriminate Hfin; subst s; [reflexivity|].
  unfold to_Q, Qlt in Hlt. cbn [cond_Zopp] in Hlt.
  destruct e as [|p|p]; cbn [Qnum Qden inject_Z] in Hlt.
  - lia.
  - pose proof (Z.pow_pos_nonneg 2 (Z.pos p) ltac:(lia) ltac:(lia)). nia.
  - unfold Math_round, round_half_up. cbn [cond_Zopp].
    replace ((2 * Z.pos m + Z.pos (2 ^ p)) / (2 * Z.pos (2 ^ p))) with 0;
      [reflexivity|].
    symmetry. apply Z.div_small. lia.
Qed.

(** X8.  A positive amount whose product with 100 is below one half
    passes the validation, and the regional gateway is asked for an order
    of +0 minor units. *)
Theorem tiny_amount_orders_zero
    (w : world) (req : request) (amount : value) (n : number)
    (t : list call) :
  get (body req) "amount" = Normal amount ->
  positive_amount amount n ->
  is_finite (mul n (of_int 100)) = true ->
  (to_Q (mul n (of_int 100)) < 1 # 2)%Q ->
  snd (createRazorpayOrder w req t)
  = (t ++ [razorpay_orders_create
             (razorpay_options w req (S754_zero false))])%list.
Proof.
  intros Ha Hpos Hfin Hlt.
  rewrite (razorpay_valid w req amount n t Ha Hpos). cbn [snd].
  unfold razorpay_call.
  now rewrite (tiny_product_rounds_to_zero n (proj2 Hpos) Hfin Hlt).
Qed.

(** ** The card gateway *)

Lemma header_cases (name : string) (hs : list (string * string)) :
  header name hs = VUndefined \/ exists s : string, header name hs = VStr s.
Proof.
  induction hs as [|[k v] r IH]; cbn [header]; [now left|].
  destruct (String.eqb name k); [right; now exists v | exact IH].
Qed.

Lemma checkout_origin_read (req : request) :
  ToString (or_else (header "origin" (headers req))
                    (VStr "http://localhost:3000"))
  = Normal (checkout_origin req).
Proof.
  unfold checkout_origin, or_else.
  destruct (header_cases "origin" (headers req)) as [-> | [s ->]];
    [reflexivity|].
  cbn [ToBoolean]. destruct (String.eqb s ""); reflexivity.
Qed.

Lemma stripe_unreadable (w : world) (lower : string -> string)
    (req : request) (e : value) (t : list call) :
  (destructure (body req) "booking" = Throw e
   \/ exists amount : value,
        get (body req) "amount" = Normal amount
        /\ invalid_amount amount = Throw e) ->
  createStripeSession w lower req t = (Normal (stripe_failed e), t).
Proof.
  unfold createStripeSession. plumbing. intros [H|(amount & Ha & H)].
  - unfold destructure in H. rewrite H. reflexivity.
  - rewrite (get_total _ _ _ "booking" Ha), Ha,
      (get_total _ _ _ "currency" Ha), H. reflexivity.
Qed.

Lemma stripe_invalid (w : world) (lower : string -> string)
    (req : request) (amount : value) (t : list call) :
  get (body req) "amount" = Normal amount ->
  invalid_amount amount = Normal true ->
  createStripeSession w lower req t = (Normal invalid_amount_rupees, t).
Proof.
  intros Ha Hi. unfold createStripeSession. plumbing.
  now rewrite (get_total _ _ _ "booking" Ha), Ha,
    (get_total _ _ _ "currency" Ha), Hi.
Qed.

(** The run of the handler on a positive amount. *)
Lemma stripe_valid (w : world) (lower : string -> string)
    (req : request) (amount : value) (n : number) (t : list call) :
  get (body req) "amount" = Normal amount ->
  positive_amount amount n ->
  createStripeSession w lower req t
  = match stripe_arguments lower req (Math_round (mul n (of_int 100))) with
    | Throw e => (Normal (stripe_failed e), t)
    | Normal params =>
        (Normal
           (stripe_answer (settle w (stripe_checkout_sessions_create params))),
         (t ++ [stripe_checkout_sessions_create params])%list)
    end.
Proof.
  intros Ha Hpos. unfold createStripeSession, stripe_arguments. plumbing.
  rewrite (get_total _ _ _ "booking" Ha), Ha, (get_total _ _ _ "currency" Ha),
    (positive_amount_valid _ _ Hpos), (minor_units_positive _ _ Hpos),
    checkout_origin_read.
  fold (booking_of req). fold (currency_of req).
  destruct (toLowerCase lower (currency_of req)) as [lowered|e];
    [|reflexivity].
  cbn [bind].
  destruct (get (booking_of req) "services") as [services|e] eqn:Es;
    [|reflexivity].
  rewrite (booking_label_read _ _ Es). cbn [bind].
  destruct (booking_label (booking_of req)) as [label|e]; [|reflexivity].
  cbn [bind]. fold (stripe_session_params req lowered label
                      (Math_round (mul n (of_int 100)))).
  unfold stripe_answer.
  destruct (settle w _) as [session|e]; [|reflexivity].
  destruct (get session "id"); reflexivity.
Qed.

(** Every run of the handler. *)
Lemma stripe_cases (w : world) (lower : string -> string)
    (req : request) (t : list call) :
  (exists e : value,
      createStripeSession w lower req t = (Normal (stripe_failed e), t))
  \/ createStripeSession w lower req t = (Normal invalid_amount_rupees, t)
  \/ exists (amount : value) (n : number) (params : value),
       get (body req) "amount" = Normal amount
       /\ positive_amount amount n
       /\ stripe_arguments lower req (Math_round (mul n (of_int 100)))
          = Normal params
       /\ createStripeSession w lower req t
          = (Normal
               (stripe_answer
                  (settle w (stripe_checkout_sessions_create params))),
             (t ++ [stripe_checkout_sessions_create params])%list).
Proof.
  destruct (get (body req) "amount") as [amount|e] eqn:Ha.
  - destruct (invalid_amount amount) as [[|]|e] eqn:Hi.
    + right; left. exact (stripe_invalid w lower req amount t Ha Hi).
    + apply valid_amount_iff_positive in Hi as [n Hpos].
      pose proof (stripe_valid w lower req amount n t Ha Hpos) as H.
      destruct (stripe_arguments lower req _) as [params|e] eqn:Ep.
      * right; right. exists amount, n, params.
        split; [reflexivity|]. split; [exact Hpos|]. split; [exact Ep|].
        exact H.
      * left. now exists e.
    + left. exists e. apply stripe_unreadable. right. now exists amount.
  - left. destruct (get_throws _ _ _ Ha) as [_ Hn].
    destruct (body req) eqn:Eb; try discriminate Hn;
      eexists; apply stripe_unreadable; left; rewrite Eb; reflexivity.
Qed.

Lemma stripe_arguments_inv (lower : string -> string) (req : request)
    (unitAmount : number) (params : value) :
  stripe_arguments lower req unitAmount = Normal params ->
  exists (lowered : value) (label : string),
    toLowerCase lower (currency_of req) = Normal lowered
    /\ nullish (booking_of req) = false
    /\ booking_label (booking_of req) = Normal label
    /\ params = stripe_session_params req lowered label unitAmount.
Proof.
  unfold stripe_arguments.
  destruct (toLowerCase lower (currency_of req)) as [lowered|e];
    [|discriminate].
  cbn [bind].
  destruct (get (booking_of req) "services") as [services|e] eqn:Es;
    [|discriminate].
  cbn [bind].
  destruct (booking_label (booking_of req)) as [label|e]; [|discriminate].
  cbn [bind]. intros H. injection H as <-. exists lowered, label.
  repeat split. destruct (booking_of req); try discriminate Es; reflexivity.
Qed.

(** The sessions the card gateway is asked to create are built by
    [stripe_arguments]. *)
Lemma stripe_call_arguments (w : world) (lower : string -> string)
    (req : request) (params : value) :
  In (stripe_checkout_sessions_create params)
     (snd (createStripeSession w lower req [])) ->
  exists unitAmount : number,
    stripe_arguments lower req unitAmount = Normal params.
Proof.
  destruct (stripe_cases w lower req [])
    as [(e & H) | [H | (amount & n & params' & _ & _ & Ep & H)]];
    rewrite H; cbn [snd app In]; try contradiction.
  intros [E|[]]. injection E as E. subst params'. eexists. exact Ep.
Qed.

(** X9.  The redirect URLs of every session start with the [Origin]
    header of the request, or with [http://localhost:3000] when the header
    is absent or empty, and end in [/success.html] and [/failure.html]. *)
Theorem stripe_redirects_follow_origin
    (w : world) (lower : string -> string) (req : request) (params : value) :
  In (stripe_checkout_sessions_create params)
     (snd (createStripeSession w lower req [])) ->
  get_opt params "success_url" = VStr (checkout_origin req ++ "/success.html")
  /\ get_opt params "cancel_url" = VStr (checkout_origin req ++ "/failure.html").
Proof.
  intros H. destruct (stripe_call_arguments w lower req params H) as [u Hu].
  destruct (stripe_arguments_inv lower req u params Hu)
    as (lowered & label & _ & _ & _ & ->).
  split; reflexivity.
Qed.

(** X10.  The currency of every session is a string in lower case: the
    currency of the request, [INR] when it has none, through
    [toLowerCase]. *)
Theorem stripe_currency_is_lowercased
    (w : world) (lower : string -> string) (req : request) (params : value) :
  In (stripe_checkout_sessions_create params)
     (snd (createStripeSession w lower req [])) ->
  exists s : string,
    currency_of req = VStr s
    /\ (get_opt (body req) "currency" = VUndefined -> s = "INR")
    /\ match get_opt params "line_items" with
       | VArr [item] =>
           get_opt (get_opt item "price_data") "currency" = VStr (lower s)
       | _ => False
       end.
Proof.
  intros H. destruct (stripe_call_arguments w lower req params H) as [u Hu].
  destruct (stripe_arguments_inv lower req u params Hu)
    as (lowered & label & Hl & _ & _ & ->).
  unfold toLowerCase in Hl.
  destruct (currency_of req) as [| |b|x|s|l|props] eqn:Ec;
    try discriminate Hl.
  injection Hl as <-. exists s. split; [reflexivity|]. split; [|reflexivity].
  intros Hu'. unfold currency_of in Ec. rewrite Hu' in Ec.
  now injection Ec as <-.
Qed.

(** X11.  A currency that is present and is not a string stops a request
    with a positive amount at [currency.toLowerCase()]: it is answered 500
    and the card gateway is not called. *)
Theorem stripe_rejects_non_string_currency
    (w : world) (lower : string -> string) (req : request)
    (amount : value) (n : number) (t : list call) :
  get (body req) "amount" = Normal amount ->
  positive_amount amount n ->
  (forall s : string, currency_of req <> VStr s) ->
  exists e : value,
    createStripeSession w lower req t = (Normal (stripe_failed e), t).
Proof.
  intros Ha Hpos Hc. rewrite (stripe_valid w lower req amount n t Ha Hpos).
  unfold stripe_arguments, toLowerCase.
  destruct (currency_of req) as [| |b|x|s|l|props];
    try (eexists; reflexivity).
  now contradiction (Hc s).
Qed.

Lemma SerializeJSON_defined (v : value) :
  v <> VUndefined -> exists text : string, SerializeJSON v = Some text.
Proof.
  destruct v; cbn [SerializeJSON]; intros H;
    try contradiction; eexists; reflexivity.
Qed.

(** X12.  The metadata of every session holds the booking as JSON text,
    [{}] for a falsy booking: a string, never [undefined]. *)
Theorem stripe_metadata_is_json_text
    (w : world) (lower : string -> string) (req : request) (params : value) :
  In (stripe_checkout_sessions_create params)
     (snd (createStripeSession w lower req [])) ->
  exists text : string,
    SerializeJSON (if ToBoolean (booking_of req) then booking_of req
                   else VObj []) = Some text
    /\ get_opt (get_opt params "metadata") "booking" = VStr text.
Proof.
  intros H. destruct (stripe_call_arguments w lower req params H) as [u Hu].
  destruct (stripe_arguments_inv lower req u params Hu)
    as (lowered & label & _ & _ & _ & ->).
  destruct (SerializeJSON_defined
              (if ToBoolean (booking_of req) then booking_of req else VObj []))
    as [text Ht].
  { destruct (ToBoolean (booking_of req)) eqn:Eb; [|discriminate].
    intros E. rewrite E in Eb. discriminate Eb. }
  exists text. split; [exact Ht|].
  cbn. unfold JSON_stringify, or_else. now rewrite Ht.
Qed.


Lemma map_name_nullish (l : list value) (s : value) :
  In s l -> nullish s = true -> exists e : value, map_name l = Throw e.
Proof.
  induction l as [|x r IH]; cbn [In map_name]; [contradiction|].
  intros [->|Hin] Hn.
  - destruct s; try discriminate Hn; cbn; eexists; reflexivity.
  - destruct (get x "name") as [name|e]; cbn [bind]; [|eexists; reflexivity].
    destruct (IH Hin Hn) as [e ->]. cbn [bind]. eexists; reflexivity.
Qed.

(** X14.  [booking: null] (the default [{}] replaces [undefined] only),
    and a [services] array with an [undefined] or [null] element, stop a
    request with a positive amount before the card gateway is called: it
    is answered 500. *)
Theorem stripe_rejects_null_booking_or_service
    (w : world) (lower : string -> string) (req : request)
    (amount : value) (n : number) (t : list call) :
  get (body req) "amount" = Normal amount ->
  positive_amount amount n ->
  (get_opt (body req) "booking" = VNull
   \/ exists (services : list value) (s : value),
        get_opt (booking_of req) "services" = VArr services
        /\ In s services /\ nullish s = true) ->
  exists e : value,
    createStripeSession w lower req t = (Normal (stripe_failed e), t).
Proof.
  intros Ha Hpos H. rewrite (stripe_valid w lower req amount n t Ha Hpos).
  unfold stripe_arguments.
  destruct (toLowerCase lower (currency_of req)) as [lowered|e];
    [|eexists; reflexivity].
  cbn [bind]. destruct H as [H|(services & s & Hs & Hin & Hn)].
  - unfold booking_of. rewrite H. cbn. eexists; reflexivity.
  - destruct (get (booking_of req) "services") as [x|e];
      [|eexists; reflexivity].
    cbn [bind]. unfold booking_label. rewrite Hs.
    destruct (map_name_nullish services s Hin Hn) as [e ->].
    cbn [bind]. eexists; reflexivity.
Qed.

(** X15.  The card-gateway handler answers 200 only after the provider
    has created the session, and then with [{id: session.id}]. *)
Theorem stripe_success_returns_session_id
    (w : world) (lower : string -> string) (req : request)
    (t t' : list call) (r : response) :
  createStripeSession w lower req t = (Normal r, t') ->
  status r = 200 ->
  exists params session : value,
    t' = (t ++ [stripe_checkout_sessions_create params])%list
    /\ settle w (stripe_checkout_sessions_create params) = Normal session
    /\ sent r = Json (VObj [("id", get_opt session "id")]).
Proof.
  intros Hrun Hs.
  destruct (stripe_cases w lower req t)
    as [(e & H) | [H | (amount & n & params & _ & _ & _ & H)]];
    rewrite H in Hrun; injection Hrun as <- <-; try discriminate Hs.
  unfold stripe_answer in *.
  destruct (settle w (stripe_checkout_sessions_create params))
    as [session|e] eqn:Es; [|discriminate Hs].
  destruct (get session "id") as [id|e] eqn:Ei; [|discriminate Hs].
  apply get_get_opt in Ei. subst id.
  exists params, session. repeat split. exact Es.
Qed.

(** ** The wallet gateway *)

Lemma credentials_present_or_missing (cfg : credentials) :
  credentials_present cfg \/ credentials_missing cfg.
Proof.
  unfold credentials_present, credentials_missing.
  destruct (string_dec (PAYPAL_CLIENT cfg) "");
    destruct (string_dec (PAYPAL_SECRET cfg) ""); tauto.
Qed.

(** With credentials, the token is asked for, once. *)
Lemma getPaypalToken_present (w : world) (cfg : credentials) (t : list call) :
  credentials_present cfg ->
  getPaypalToken w cfg t
  = (access_token_of (settle w (token_call cfg)), (t ++ [token_call cfg])%list).
Proof.
  intros [Hc Hs]. unfold getPaypalToken, access_token_of.
  apply String.eqb_neq in Hc, Hs. rewrite Hc, Hs. cbn [orb]. plumbing.
  fold (token_call cfg).
  destruct (settle w (token_call cfg)) as [resp|e]; [|reflexivity].
  cbn [bind]. destruct (get resp "data"); reflexivity.
Qed.

(** An amount that converts to a Number converts to a string. *)
Lemma amount_text (amount : value) (n : number) :
  Number amount = Normal n -> exists text : string, String_ amount = Normal text.
Proof.
  unfold Number, ToNumber, ToPrimitive, String_.
  destruct amount; cbn [bind]; intros H;
    try (cbn [ToString]; eexists; reflexivity);
    match goal with
    | |- context [ToString ?x] => destruct (ToString x)
    end; try discriminate H; eexists; reflexivity.
Qed.

Lemma paypal_create_unreadable (w : world) (cfg : credentials)
    (req : request) (e : value) (t : list call) :
  (destructure (body req) "amount" = Throw e
   \/ exists amount : value,
        get (body req) "amount" = Normal amount
        /\ invalid_amount amount = Throw e) ->
  createPaypalOrder w cfg req t = (Normal (paypal_create_error e), t).
Proof.
  unfold createPaypalOrder. plumbing. intros [H|(amount & Ha & H)].
  - unfold destructure in H. rewrite H. reflexivity.
  - rewrite Ha, (get_total _ _ _ "currency" Ha), H. reflexivity.
Qed.

Lemma paypal_create_invalid (w : world) (cfg : credentials)
    (req : request) (amount : value) (t : list call) :
  get (body req) "amount" = Normal amount ->
  invalid_amount amount = Normal true ->
  createPaypalOrder w cfg req t = (Normal invalid_amount_paypal, t).
Proof.
  intros Ha Hi. unfold createPaypalOrder. plumbing.
  now rewrite Ha, (get_total _ _ _ "currency" Ha), Hi.
Qed.

Lemma paypal_create_missing (w : world) (cfg : credentials)
    (req : request) (amount : value) (n : number) (t : list call) :
  get (body req) "amount" = Normal amount ->
  positive_amount amount n ->
  credentials_missing cfg ->
  createPaypalOrder w cfg req t = (Normal paypal_create_failed, t).
Proof.
  intros Ha Hpos Hc. unfold createPaypalOrder. plumbing.
  rewrite Ha, (get_total _ _ _ "currency" Ha),
    (positive_amount_valid _ _ Hpos).
  cbn beta iota. now rewrite (getPaypalToken_missing w cfg t Hc).
Qed.

(** The run of the handler on a positive amount, with credentials. *)
Lemma paypal_create_valid (w : world) (cfg : credentials) (req : request)
    (amount : value) (n : number) (text : string) (t : list call) :
  get (body req) "amount" = Normal amount ->
  positive_amount amount n ->
  String_ amount = Normal text ->
  credentials_present cfg ->
  createPaypalOrder w cfg req t
  = match bearer_of w cfg with
    | Throw e =>
        (Normal (paypal_create_error e), (t ++ [token_call cfg])%list)
    | Normal bearer =>
        (Normal
           (paypal_order_answer
              (settle w (order_call cfg (currency_of req) text bearer))),
         (t ++ [token_call cfg;
                order_call cfg (currency_of req) text bearer])%list)
    end.
Proof.
  intros Ha Hpos Ht Hc. unfold createPaypalOrder, bearer_of. plumbing.
  rewrite Ha, (get_total _ _ _ "currency" Ha),
    (positive_amount_valid _ _ Hpos).
  cbn beta iota. rewrite (getPaypalToken_present w cfg t Hc).
  destruct (access_token_of (settle w (token_call cfg))) as [token|e];
    [|reflexivity].
  cbn [bind]. rewrite Ht.
  destruct (ToString token) as [bearer|e]; [|reflexivity].
  fold (currency_of req). fold (bearer_config bearer).
  fold (order_call cfg (currency_of req) text bearer).
  rewrite <- app_assoc. cbn [app].
  unfold paypal_order_answer.
  destruct (settle w _) as [resp|e]; [|reflexivity].
  cbn [bind]. destruct (get resp "data") as [data|e]; [|reflexivity].
  cbn [bind]. destruct (get data "id"); reflexivity.
Qed.

(** Every run of the creation of an order. *)
Lemma paypal_create_cases (w : world) (cfg : credentials) (req : request)
    (t : list call) :
  (exists r : response,
      createPaypalOrder w cfg req t = (Normal r, t)
      /\ (status r = 400 \/ status r = 500))
  \/ (credentials_present cfg
      /\ exists (amount : value) (n : number) (text : string),
           get (body req) "amount" = Normal amount
           /\ positive_amount amount n
           /\ String_ amount = Normal text
           /\ createPaypalOrder w cfg req t
              = match bearer_of w cfg with
                | Throw e =>
                    (Normal (paypal_create_error e),
                     (t ++ [token_call cfg])%list)
                | Normal bearer =>
                    (Normal
                       (paypal_order_answer
                          (settle w
                             (order_call cfg (currency_of req) text bearer))),
                     (t ++ [token_call cfg;
                            order_call cfg (currency_of req) text bearer])%list)
                end).
Proof.
  destruct (get (body req) "amount") as [amount|e] eqn:Ha.
  - destruct (invalid_amount amount) as [[|]|e] eqn:Hi.
    + left. eexists. split;
        [exact (paypal_create_invalid w cfg req amount t Ha Hi) | now left].
    + apply valid_amount_iff_positive in Hi as [n Hpos].
      destruct (credentials_present_or_missing cfg) as [Hc|Hc].
      * right. split; [exact Hc|].
        destruct (amount_text amount n (proj1 Hpos)) as [text Ht].
        exists amount, n, text. split; [reflexivity|].
        split; [exact Hpos|]. split; [exact Ht|].
        exact (paypal_create_valid w cfg req amount n text t Ha Hpos Ht Hc).
      * left. eexists. split;
          [exact (paypal_create_missing w cfg req amount n t Ha Hpos Hc)
          | now right].
    + left. exists (paypal_create_error e). split; [|now right].
      apply paypal_create_unreadable. right. now exists amount.
  - left. eexists (paypal_create_error _). split; [|now right].
    apply paypal_create_unreadable. left. unfold destructure. now rewrite Ha.
Qed.

Lemma capture_unreadable (w : world) (cfg : credentials) (req : request)
    (e : value) (t : list call) :
  destructure (body req) "orderId" = Throw e ->
  capturePaypalPayment w cfg req t = (Normal (paypal_capture_error e), t).
Proof.
  intros H. unfold capturePaypalPayment. plumbing.
  unfold destructure in H. now rewrite H.
Qed.

Lemma capture_refused (w : world) (cfg : credentials) (req : request)
    (orderId : value) (t : list call) :
  get (body req) "orderId" = Normal orderId ->
  ToBoolean orderId = false ->
  capturePaypalPayment w cfg req t = (Normal missing_order_id, t).
Proof.
  intros Ho Hm. unfold capturePaypalPayment. plumbing. now rewrite Ho, Hm.
Qed.

Lemma capture_missing (w : world) (cfg : credentials) (req : request)
    (orderId : value) (t : list call) :
  get (body req) "orderId" = Normal orderId ->
  ToBoolean orderId = true ->
  credentials_missing cfg ->
  capturePaypalPayment w cfg req t = (Normal paypal_capture_failed, t).
Proof.
  intros Ho Hp Hc. unfold capturePaypalPayment. plumbing.
  rewrite Ho, Hp. cbn [negb].
  now rewrite (getPaypalToken_missing w cfg t Hc).
Qed.

(** The run of the capture on a present order id, with credentials. *)
Lemma capture_valid (w : world) (cfg : credentials) (req : request)
    (orderId : value) (t : list call) :
  get (body req) "orderId" = Normal orderId ->
  ToBoolean orderId = true ->
  credentials_present cfg ->
  capturePaypalPayment w cfg req t
  = match access_token_of (settle w (token_call cfg)) with
    | Throw e =>
        (Normal (paypal_capture_error e), (t ++ [token_call cfg])%list)
    | Normal token =>
        match
          (let! id := ToString orderId in
           let! bearer := ToString token in
           Normal (capture_call cfg id bearer))
        with
        | Throw e =>
            (Normal (paypal_capture_error e), (t ++ [token_call cfg])%list)
        | Normal c =>
            (Normal (paypal_capture_answer (settle w c)),
             (t ++ [token_call cfg; c])%list)
        end
    end.
Proof.
  intros Ho Hp Hc. unfold capturePaypalPayment. plumbing.
  rewrite Ho, Hp. cbn [negb]. rewrite (getPaypalToken_present w cfg t Hc).
  destruct (access_token_of (settle w (token_call cfg))) as [token|e];
    [|reflexivity].
  destruct (ToString orderId) as [id|e]; [|reflexivity].
  cbn [bind]. destruct (ToString token) as [bearer|e]; [|reflexivity].
  cbn [bind]. fold (bearer_config bearer). fold (capture_call cfg id bearer).
  rewrite <- app_assoc. cbn [app].
  unfold paypal_capture_answer.
  destruct (settle w _) as [resp|e]; [|reflexivity].
  cbn [bind]. destruct (get resp "data"); reflexivity.
Qed.

(** Every run of the capture. *)
Lemma capture_cases (w : world) (cfg : credentials) (req : request)
    (t : list call) :
  (exists r : response,
      capturePaypalPayment w cfg req t = (Normal r, t)
      /\ (status r = 400 \/ status r = 500))
  \/ (credentials_present cfg
      /\ exists orderId : value,
           get (body req) "orderId" = Normal orderId
           /\ ToBoolean orderId = true
           /\ capturePaypalPayment w cfg req t
              = match access_token_of (settle w (token_call cfg)) with
                | Throw e =>
                    (Normal (paypal_capture_error e),
                     (t ++ [token_call cfg])%list)
                | Normal token =>
                    match
                      (let! id := ToString orderId in
                       let! bearer := ToString token in
                       Normal (capture_call cfg id bearer))
                    with
                    | Throw e =>
                        (Normal (paypal_capture_error e),
                         (t ++ [token_call cfg])%list)
                    | Normal c =>
                        (Normal (paypal_capture_answer (settle w c)),
                         (t ++ [token_call cfg; c])%list)
                    end
                end).
Proof.
  destruct (get (body req) "orderId") as [orderId|e] eqn:Ho.
  - destruct (ToBoolean orderId) eqn:Hp.
    + destruct (credentials_present_or_missing cfg) as [Hc|Hc].
      * right. split; [exact Hc|]. exists orderId.
        split; [reflexivity|]. split; [exact Hp|].
        exact (capture_valid w cfg req orderId t Ho Hp Hc).
      * left. exists paypal_capture_failed. split; [|now right].
        exact (capture_missing w cfg req orderId t Ho Hp Hc).
    + left. exists missing_order_id. split; [|now left].
      exact (capture_refused w cfg req orderId t Ho Hp).
  - left. eexists (paypal_capture_error _). split; [|now right].
    apply capture_unreadable. unfold destructure. now rewrite Ho.
Qed.

Lemma not_present_and_missing (cfg : credentials) :
  credentials_present cfg -> credentials_missing cfg -> False.
Proof. intros [H1 H2] [H|H]; contradiction. Qed.

(** X16.  Without the client id or the client secret the wallet handlers
    are offline: whatever the request, neither makes any outbound call. *)
Theorem wallet_offline_without_credentials
    (w : world) (cfg : credentials) (req : request) (t : list call) :
  credentials_missing cfg ->
  snd (createPaypalOrder w cfg req t) = t
  /\ snd (capturePaypalPayment w cfg req t) = t.
Proof.
  intros Hc. split.
  - destruct (paypal_create_cases w cfg req t) as [(r & H & _) | [Hp _]];
      [now rewrite H | destruct (not_present_and_missing cfg Hp Hc)].
  - destruct (capture_cases w cfg req t) as [(r & H & _) | [Hp _]];
      [now rewrite H | destruct (not_present_and_missing cfg Hp Hc)].
Qed.

(** X17.  The creation of an order makes no call, the token exchange
    alone, or the token exchange followed by one order creation; the order
    carries the text of the amount, the currency of the request and, as
    its bearer, the token that very exchange returned. *)
Theorem paypal_order_follows_token
    (w : world) (cfg : credentials) (req : request) :
  let trace := snd (createPaypalOrder w cfg req []) in
  trace = []
  \/ trace = [token_call cfg]
  \/ exists (amount : value) (text bearer : string),
       get (body req) "amount" = Normal amount
       /\ String_ amount = Normal text
       /\ bearer_of w cfg = Normal bearer
       /\ trace = [token_call cfg;
                   order_call cfg (currency_of req) text bearer].
Proof.
  cbn zeta.
  destruct (paypal_create_cases w cfg req [])
    as [(r & H & _) | (_ & amount & n & text & Ha & _ & Ht & H)];
    rewrite H; [now left|].
  destruct (bearer_of w cfg) as [bearer|e]; [|right; now left].
  right; right. exists amount, text, bearer. now repeat split.
Qed.

(** X18.  When the token cannot be had (the exchange is rejected, its
    reply has no data, or the token does not convert to a string), a valid
    request is answered 500 with the details of that error, and no order
    is created. *)
Theorem paypal_token_failure_stops_order
    (w : world) (cfg : credentials) (req : request)
    (amount : value) (n : number) (e : value) (t : list call) :
  get (body req) "amount" = Normal amount ->
  positive_amount amount n ->
  credentials_present cfg ->
  bearer_of w cfg = Throw e ->
  createPaypalOrder w cfg req t
  = (Normal (paypal_create_error e), (t ++ [token_call cfg])%list).
Proof.
  intros Ha Hpos Hc He.
  destruct (amount_text amount n (proj1 Hpos)) as [text Ht].
  rewrite (paypal_create_valid w cfg req amount n text t Ha Hpos Ht Hc).
  now rewrite He.
Qed.

(** X19.  The creation of an order answers 200 only after the token
    exchange and the order creation, and then with the provider's data:
    [{orderId: data.id, order: data}]. *)
Theorem paypal_success_relays_order
    (w : world) (cfg : credentials) (req : request)
    (t t' : list call) (r : response) :
  createPaypalOrder w cfg req t = (Normal r, t') ->
  status r = 200 ->
  exists (c : call) (resp data : value),
    t' = (t ++ [token_call cfg; c])%list
    /\ settle w c = Normal resp
    /\ get resp "data" = Normal data
    /\ sent r = Json (VObj [("orderId", get_opt data "id"); ("order", data)]).
Proof.
  intros Hrun Hs.
  destruct (paypal_create_cases w cfg req t)
    as [(r' & H & Hr) | (_ & amount & n & text & _ & _ & _ & H)];
    rewrite H in Hrun.
  - injection Hrun as <- _. destruct Hr as [Hr|Hr]; rewrite Hr in Hs;
      discriminate Hs.
  - destruct (bearer_of w cfg) as [bearer|e];
      injection Hrun as <- <-; [|discriminate Hs].
    unfold paypal_order_answer in *.
    destruct (settle w (order_call cfg (currency_of req) text bearer))
      as [resp|e] eqn:Es; [|discriminate Hs].
    cbn [bind] in *.
    destruct (get resp "data") as [data|e] eqn:Ed; [|discriminate Hs].
    cbn [bind] in *.
    destruct (get data "id") as [id|e] eqn:Ei; [|discriminate Hs].
    apply get_get_opt in Ei. subst id.
    exists (order_call cfg (currency_of req) text bearer), resp, data.
    repeat split; assumption.
Qed.

(** X20.  A capture makes no call, the token exchange alone, or the token
    exchange followed by one capture, a POST of [{}] to
    [/v2/checkout/orders/<id>/capture] where [<id>] is the order id of the
    request as a string, not escaped. *)
Theorem capture_follows_token
    (w : world) (cfg : credentials) (req : request) :
  let trace := snd (capturePaypalPayment w cfg req []) in
  trace = []
  \/ trace = [token_call cfg]
  \/ exists (orderId : value) (id bearer : string),
       get (body req) "orderId" = Normal orderId
       /\ ToString orderId = Normal id
       /\ bearer_of w cfg = Normal bearer
       /\ trace = [token_call cfg; capture_call cfg id bearer].
Proof.
  cbn zeta.
  destruct (capture_cases w cfg req [])
    as [(r & H & _) | (_ & orderId & Ho & _ & H)];
    rewrite H; [now left|].
  unfold bearer_of.
  destruct (access_token_of (settle w (token_call cfg))) as [token|e];
    [|right; now left].
  destruct (ToString orderId) as [id|e] eqn:Ei; [|right; now left].
  cbn [bind]. destruct (ToString token) as [bearer|e]; [|right; now left].
  right; right. exists orderId, id, bearer. now repeat split.
Qed.

(** X21.  A capture answers 200 only after the token exchange and the
    capture call, and then with [{success: true, capture: data}], the data
    of the provider's reply. *)
Theorem capture_success_relays_capture
    (w : world) (cfg : credentials) (req : request)
    (t t' : list call) (r : response) :
  capturePaypalPayment w cfg req t = (Normal r, t') ->
  status r = 200 ->
  exists (c : call) (resp data : value),
    t' = (t ++ [token_call cfg; c])%list
    /\ settle w c = Normal resp
    /\ get resp "data" = Normal data
    /\ sent r = Json (VObj [("success", VBool true); ("capture", data)]).
Proof.
  intros Hrun Hs.
  destruct (capture_cases w cfg req t)
    as [(r' & H & Hr) | (_ & orderId & _ & _ & H)]; rewrite H in Hrun.
  - injection Hrun as <- _. destruct Hr as [Hr|Hr]; rewrite Hr in Hs;
      discriminate Hs.
  - destruct (access_token_of (settle w (token_call cfg))) as [token|e];
      [|injection Hrun as <- <-; discriminate Hs].
    destruct (let! id := ToString orderId in
              let! bearer := ToString token in
              Normal (capture_call cfg id bearer)) as [c|e];
      injection Hrun as <- <-; [|discriminate Hs].
    unfold paypal_capture_answer in *.
    destruct (settle w c) as [resp|e] eqn:Es; [|discriminate Hs].
    cbn [bind] in *.
    destruct (get resp "data") as [data|e] eqn:Ed; [|discriminate Hs].
    exists c, resp, data. repeat split; assumption.
Qed.

Lemma paypal_order_answer_status (settled : completion value) :
  known_status (paypal_order_answer settled).
Proof.
  unfold known_status, paypal_order_answer.
  destruct settled as [resp|e]; [|cbn; tauto]. cbn [bind].
  destruct (get resp "data") as [data|e]; [|cbn; tauto]. cbn [bind].
  destruct (get data "id"); cbn; tauto.
Qed.

Lemma paypal_capture_answer_status (settled : completion value) :
  known_status (paypal_capture_answer settled).
Proof.
  unfold known_status, paypal_capture_answer.
  destruct settled as [resp|e]; [|cbn; tauto]. cbn [bind].
  destruct (get resp "data"); cbn; tauto.
Qed.


(* ================================================================== *)
(** * The amount each gateway is sent *)
(* ================================================================== *)

(** C5.  For a positive amount, the regional and the card gateway are
    sent [Math.round(Number(amount) * 100)]: the integer nearest to the
    product (a Number), the upper one on a tie, whenever the product is
    finite.  The wallet gateway is sent [String(amount)], the amount in
    major units as text, in the value of the purchase unit.
    - The regional gateway is sent one order, of that amount.
    - The card gateway is sent one session, of that unit amount, when the
      arguments of the session can be built (the currency can be put in
      lower case, the booking is not [null] and its label can be formed);
      and whatever session it is sent has that unit amount.
    - The wallet gateway is sent, after the token exchange, one order of
      that text when the credentials are set and the exchange gave a
      token; and whatever order it is sent has that text. *)
Theorem amount_conversion
    (w : world) (cfg : credentials) (lower : string -> string)
    (req : request) (amount : value) (n : number) :
  get (body req) "amount" = Normal amount ->
  positive_amount amount n ->
  let product := mul n (of_int 100) in
  let minor := Math_round product in
  (exists options : value,
      snd (createRazorpayOrder w req []) = [razorpay_orders_create options]
      /\ get_opt options "amount" = VNum minor)
  /\ (forall (lowered : value) (label : string),
        toLowerCase lower (currency_of req) = Normal lowered ->
        nullish (booking_of req) = false ->
        booking_label (booking_of req) = Normal label ->
        exists params : value,
          snd (createStripeSession w lower req [])
          = [stripe_checkout_sessions_create params]
          /\ unit_amount_of params = VNum minor)
  /\ (forall params : value,
        In (stripe_checkout_sessions_create params)
           (snd (createStripeSession w lower req [])) ->
        unit_amount_of params = VNum minor)
  /\ (is_finite product = true ->
      (to_Q minor == inject_Z (round_half_up product)
       /\ inject_Z (round_half_up product) - (1 # 2) <= to_Q product
       /\ to_Q product < inject_Z (round_half_up product) + (1 # 2))%Q)
  /\ (forall bearer : string,
        credentials_present cfg ->
        bearer_of w cfg = Normal bearer ->
        exists (text : string) (data config : value),
          String_ amount = Normal text
          /\ snd (createPaypalOrder w cfg req [])
             = [token_call cfg;
                axios_post (PAYPAL_API cfg ++ "/v2/checkout/orders")
                  data config]
          /\ purchase_value_of data = VStr text)
  /\ (forall (url : string) (data config : value),
        In (axios_post url data config)
           (snd (createPaypalOrder w cfg req [])) ->
        url = PAYPAL_API cfg ++ "/v2/checkout/orders" ->
        exists text : string,
          String_ amount = Normal text
          /\ purchase_value_of data = VStr text).
Proof.
  intros Ha Hpos product minor.
  pose proof (positive_amount_valid _ _ Hpos) as Hvalid.
  pose proof (minor_units_positive _ _ Hpos) as Hminor.
  fold product in Hminor. fold minor in Hminor.
  split; [|split; [|split; [|split; [|split]]]].
  - eexists. unfold createRazorpayOrder. plumbing.
    rewrite Ha, (get_total _ _ _ "currency" Ha), Hvalid, Hminor.
    split; [repeat (step; cbn [fst snd app]); reflexivity | reflexivity].
  - intros lowered label Hlow Hbooking Hlabel.
    exists (stripe_session_params req lowered label minor).
    split; [|reflexivity].
    rewrite (stripe_valid w lower req amount n [] Ha Hpos).
    fold product. fold minor. unfold stripe_arguments.
    rewrite Hlow, Hlabel. cbn [bind].
    destruct (booking_of req); try discriminate Hbooking; reflexivity.
  - intros params H.
    destruct (stripe_call_inv w lower req params H)
      as (unitAmount & label & Hu & _ & Hp & _).
    rewrite <- (get_get_opt _ _ _ Ha), Hminor in Hu.
    injection Hu as <-. exact Hp.
  - intros Hfin. split; [apply Math_round_value|].
    now apply round_half_up_bounds.
  - intros bearer Hc Hb.
    destruct (amount_text amount n (proj1 Hpos)) as [text Ht].
    exists text. do 2 eexists. split; [exact Ht|].
    rewrite (paypal_create_valid w cfg req amount n text [] Ha Hpos Ht Hc), Hb.
    split; reflexivity.
  - intros url data config. unfold createPaypalOrder, getPaypalToken.
    plumbing.
    rewrite Ha, (get_total _ _ _ "currency" Ha), Hvalid.
    destruct (_ || _); [cbn; contradiction|].
    unfold String_.
    repeat (step; cbn [fst snd app]); cbn [In];
      intros H Hurl; repeat destruct H as [H|H]; try contradiction;
      injection H as <- <- <-;
      try (apply append_inj in Hurl; discriminate Hurl).
    all: eexists; split; reflexivity.
Qed.

(** The amount 100.5 of the specification: each gateway is sent one
    creation, the regional and the card gateway with
    [Math.round(100.5 * 100)], the wallet gateway with the text of the
    amount. *)
Lemma amount_conversion_witness :
  let req := request_100_5 "/create-razorpay-order" in
  let product := mul hundred_and_a_half (of_int 100) in
  let minor := Math_round product in
  (exists options : value,
      snd (createRazorpayOrder world0 req []) = [razorpay_orders_create options]
      /\ get_opt options "amount" = VNum minor)
  /\ (exists params : value,
        snd (createStripeSession world0 ascii_lower req [])
        = [stripe_checkout_sessions_create params]
        /\ unit_amount_of params = VNum minor)
  /\ (to_Q minor == inject_Z (round_half_up product)
      /\ inject_Z (round_half_up product) - (1 # 2) <= to_Q product
      /\ to_Q product < inject_Z (round_half_up product) + (1 # 2))%Q
  /\ (exists (text : string) (data config : value),
        String_ (VNum hundred_and_a_half) = Normal text
        /\ snd (createPaypalOrder world0 cfg0 req [])
           = [token_call cfg0;
              axios_post (PAYPAL_API cfg0 ++ "/v2/checkout/orders")
                data config]
        /\ purchase_value_of data = VStr text).
Proof.
  intros req product minor.
  destruct (amount_conversion world0 cfg0 ascii_lower req
              (VNum hundred_and_a_half) hundred_and_a_half)
    as (Hrazorpay & Hstripe & _ & Hround & Hpaypal & _).
  - reflexivity.
  - split; reflexivity.
  - split; [exact Hrazorpay|]. split; [|split].
    + apply (Hstripe (VStr "inr") "Customer"); reflexivity.
    + apply Hround. reflexivity.
    + apply (Hpaypal "A21AA"); [split; discriminate | reflexivity].
Defined.

(** ** What stops every create handler *)

(** X23.  An amount that is truthy but cannot be converted to a Number
    (an object that hides [toString]) makes the validation itself throw:
    each create handler answers 500 and calls nothing. *)
Theorem create_fails_on_unconvertible_amount
    (w : world) (cfg : credentials) (lower : string -> string)
    (req : request) (amount e : value) (t : list call) :
  get (body req) "amount" = Normal amount ->
  ToBoolean amount = true ->
  ToNumber amount = Throw e ->
  createRazorpayOrder w req t = (Normal (razorpay_failed e), t)
  /\ createStripeSession w lower req t = (Normal (stripe_failed e), t)
  /\ createPaypalOrder w cfg req t = (Normal (paypal_create_error e), t).
Proof.
  intros Ha Ht He.
  assert (Hi : invalid_amount amount = Throw e).
  { unfold invalid_amount, global_isNaN. now rewrite Ht, He. }
  split; [|split].
  - apply razorpay_caught.
    + now rewrite (ToNumber_throws _ _ He).
    + right. now exists amount.
  - apply stripe_unreadable. right. now exists amount.
  - apply paypal_create_unreadable. right. now exists amount.
Qed.

(** ** The routes *)

(** X25.  Only a POST reaches a payment handler: a request of any other
    method is answered without any provider call. *)
Theorem only_post_reaches_providers
    (w : world) (cfg : credentials) (lower : string -> string)
    (req : request) :
  method req <> "POST" ->
  exists r : response, serve w cfg lower req = (Normal r, []).
Proof.
  intros Hm. apply String.eqb_neq in Hm. unfold serve, app.
  rewrite Hm. cbn [andb].
  destruct (String.eqb (method req) "OPTIONS"); [eexists; reflexivity|].
  destruct (String.eqb (method req) "GET" || String.eqb (method req) "HEAD");
    cbn [andb];
    [destruct (express_static w req); [eexists; reflexivity|];
     destruct (route_matches "/health" (path req))|];
    destruct (decodable (path req)); eexists; reflexivity.
Qed.

(** ** The further properties on the data of the examples *)


Lemma razorpay_relays_provider_witness :
  let req := create_request "/create-razorpay-order"
               [("amount", VNum (of_int 500))] in
  (forall order : value,
      settle world0 (razorpay_call world0 req (of_int 500)) = Normal order ->
      createRazorpayOrder world0 req []
      = (Normal (Response 200 (Json order)),
         ([] ++ [razorpay_call world0 req (of_int 500)])%list))
  /\ (forall err : value,
        settle world0 (razorpay_call world0 req (of_int 500)) = Throw err ->
        nullish err = false ->
        createRazorpayOrder world0 req []
        = (Normal (razorpay_failed err),
           ([] ++ [razorpay_call world0 req (of_int 500)])%list)).
Proof.
  refine (razorpay_relays_provider world0 _ (VNum (of_int 500)) (of_int 500)
            [] _ _).
  - reflexivity.
  - split; reflexivity.
Defined.

Lemma razorpay_nullish_rejection_unanswered_witness :
  let w := rejecting_world VUndefined in
  let req := create_request "/create-razorpay-order"
               [("amount", VNum (of_int 500))] in
  createRazorpayOrder w req []
  = (Throw (TypeError_not_coercible "message" VUndefined),
     ([] ++ [razorpay_call w req (of_int 500)])%list).
Proof.
  refine (razorpay_nullish_rejection_unanswered (rejecting_world VUndefined) _
            (VNum (of_int 500)) (of_int 500) VUndefined [] _ _ _ _).
  - reflexivity.
  - split; reflexivity.
  - reflexivity.
  - reflexivity.
Defined.


Lemma minor_units_not_negative_witness :
  exists minor : number,
    minor_units (VNum hundred_and_a_half) = Normal minor
    /\ (minor = S754_infinity false
        \/ exists r : Z,
             0 <= r /\ is_finite minor = true
             /\ (to_Q minor == inject_Z r)%Q).
Proof.
  refine (minor_units_not_negative (VNum hundred_and_a_half)
            hundred_and_a_half _).
  split; reflexivity.
Defined.

Lemma tiny_amount_orders_zero_witness :
  let req := create_request "/create-razorpay-order"
               [("amount", VStr "0.004")] in
  snd (createRazorpayOrder world0 req [])
  = ([] ++ [razorpay_orders_create
              (razorpay_options world0 req (S754_zero false))])%list.
Proof.
  refine (tiny_amount_orders_zero world0 _ (VStr "0.004")
            (StringToNumber "0.004") [] _ _ _ _).
  - reflexivity.
  - split; vm_compute; reflexivity.
  - vm_compute. reflexivity.
  - vm_compute. reflexivity.
Defined.

Lemma stripe_redirects_follow_origin_witness :
  let req := booking_request two_services in
  get_opt (stripe_params req) "success_url"
  = VStr (checkout_origin req ++ "/success.html")
  /\ get_opt (stripe_params req) "cancel_url"
     = VStr (checkout_origin req ++ "/failure.html").
Proof.
  refine (stripe_redirects_follow_origin world0 ascii_lower
            (booking_request two_services)
            (stripe_params (booking_request two_services)) _).
  vm_compute. left. reflexivity.
Defined.

Lemma stripe_currency_is_lowercased_witness :
  let req := booking_request two_services in
  exists s : string,
    currency_of req = VStr s
    /\ (get_opt (body req) "currency" = VUndefined -> s = "INR")
    /\ match get_opt (stripe_params req) "line_items" with
       | VArr [item] =>
           get_opt (get_opt item "price_data") "currency"
           = VStr (ascii_lower s)
       | _ => False
       end.
Proof.
  refine (stripe_currency_is_lowercased world0 ascii_lower
            (booking_request two_services)
            (stripe_params (booking_request two_services)) _).
  vm_compute. left. reflexivity.
Defined.

Lemma stripe_rejects_non_string_currency_witness :
  exists e : value,
    createStripeSession world0 ascii_lower
      (create_request "/create-stripe-session"
         [("amount", VNum (of_int 500)); ("currency", VNum (of_int 356))]) []
    = (Normal (stripe_failed e), []).
Proof.
  refine (stripe_rejects_non_string_currency world0 ascii_lower _
            (VNum (of_int 500)) (of_int 500) [] _ _ _).
  - reflexivity.
  - split; reflexivity.
  - intros s. discriminate.
Defined.

Lemma stripe_metadata_is_json_text_witness :
  let req := booking_request two_services in
  exists text : string,
    SerializeJSON (if ToBoolean (booking_of req) then booking_of req
                   else VObj []) = Some text
    /\ get_opt (get_opt (stripe_params req) "metadata") "booking" = VStr text.
Proof.
  refine (stripe_metadata_is_json_text world0 ascii_lower
            (booking_request two_services)
            (stripe_params (booking_request two_services)) _).
  vm_compute. left. reflexivity.
Defined.

Lemma stripe_rejects_null_booking_or_service_witness :
  exists e : value,
    createStripeSession world0 ascii_lower (booking_request VNull) []
    = (Normal (stripe_failed e), []).
Proof.
  refine (stripe_rejects_null_booking_or_service world0 ascii_lower _
            (VNum (of_int 500)) (of_int 500) [] _ _ _).
  - reflexivity.
  - split; reflexivity.
  - left. reflexivity.
Defined.

Lemma stripe_success_returns_session_id_witness :
  let req := booking_request two_services in
  exists params session : value,
    snd (createStripeSession world0 ascii_lower req [])
    = ([] ++ [stripe_checkout_sessions_create params])%list
    /\ settle world0 (stripe_checkout_sessions_create params) = Normal session
    /\ sent (res_json (VObj [("id", VStr "cs_test_1")]))
       = Json (VObj [("id", get_opt session "id")]).
Proof.
  refine (stripe_success_returns_session_id world0 ascii_lower
            (booking_request two_services) []
            (snd (createStripeSession world0 ascii_lower
                    (booking_request two_services) []))
            (res_json (VObj [("id", VStr "cs_test_1")])) _ _).
  - vm_compute. reflexivity.
  - reflexivity.
Defined.

Lemma wallet_offline_without_credentials_witness :
  let req := create_request "/create-paypal-order"
               [("amount", VNum (of_int 500));
                ("orderId", VStr "5O190127TN364715T")] in
  snd (createPaypalOrder world0 no_credentials req []) = []
  /\ snd (capturePaypalPayment world0 no_credentials req []) = [].
Proof.
  refine (wallet_offline_without_credentials world0 no_credentials _ [] _).
  left. reflexivity.
Defined.

Lemma paypal_token_failure_stops_order_witness :
  let w := rejecting_world (Error "Request failed with status code 401") in
  createPaypalOrder w cfg0 (request_100_5 "/create-paypal-order") []
  = (Normal
       (paypal_create_error (Error "Request failed with status code 401")),
     ([] ++ [token_call cfg0])%list).
Proof.
  refine (paypal_token_failure_stops_order
            (rejecting_world (Error "Request failed with status code 401"))
            cfg0 _ (VNum hundred_and_a_half) hundred_and_a_half _ [] _ _ _ _).
  - reflexivity.
  - split; reflexivity.
  - split; discriminate.
  - reflexivity.
Defined.

Lemma paypal_success_relays_order_witness :
  let req := request_100_5 "/create-paypal-order" in
  let data := VObj [("access_token", VStr "A21AA");
                    ("id", VStr "5O190127TN364715T")] in
  exists (c : call) (resp data' : value),
    snd (createPaypalOrder world0 cfg0 req [])
    = ([] ++ [token_call cfg0; c])%list
    /\ settle world0 c = Normal resp
    /\ get resp "data" = Normal data'
    /\ sent (res_json (VObj [("orderId", VStr "5O190127TN364715T");
                             ("order", data)]))
       = Json (VObj [("orderId", get_opt data' "id"); ("order", data')]).
Proof.
  refine (paypal_success_relays_order world0 cfg0
            (request_100_5 "/create-paypal-order") []
            (snd (createPaypalOrder world0 cfg0
                    (request_100_5 "/create-paypal-order") []))
            (res_json (VObj
               [("orderId", VStr "5O190127TN364715T");
                ("order", VObj [("access_token", VStr "A21AA");
                                ("id", VStr "5O190127TN364715T")])])) _ _).
  - vm_compute. reflexivity.
  - reflexivity.
Defined.

Lemma capture_success_relays_capture_witness :
  let req := create_request "/capture-paypal-payment"
               [("orderId", VStr "5O190127TN364715T")] in
  let data := VObj [("access_token", VStr "A21AA");
                    ("id", VStr "5O190127TN364715T")] in
  exists (c : call) (resp data' : value),
    snd (capturePaypalPayment world0 cfg0 req [])
    = ([] ++ [token_call cfg0; c])%list
    /\ settle world0 c = Normal resp
    /\ get resp "data" = Normal data'
    /\ sent (res_json (VObj [("success", VBool true); ("capture", data)]))
       = Json (VObj [("success", VBool true); ("capture", data')]).
Proof.
  refine (capture_success_relays_capture world0 cfg0
            (create_request "/capture-paypal-payment"
               [("orderId", VStr "5O190127TN364715T")]) []
            (snd (capturePaypalPayment world0 cfg0
                    (create_request "/capture-paypal-payment"
                       [("orderId", VStr "5O190127TN364715T")]) []))
            (res_json (VObj
               [("success", VBool true);
                ("capture", VObj [("access_token", VStr "A21AA");
                                  ("id", VStr "5O190127TN364715T")])])) _ _).
  - vm_compute. reflexivity.
  - reflexivity.
Defined.

Lemma create_fails_on_unconvertible_amount_witness :
  let req := create_request "/create-razorpay-order"
               [("amount", VObj [("toString", VNum (of_int 1))])] in
  createRazorpayOrder world0 req []
  = (Normal (razorpay_failed TypeError_to_primitive), [])
  /\ createStripeSession world0 ascii_lower req []
     = (Normal (stripe_failed TypeError_to_primitive), [])
  /\ createPaypalOrder world0 cfg0 req []
     = (Normal (paypal_create_error TypeError_to_primitive), []).
Proof.
  refine (create_fails_on_unconvertible_amount world0 cfg0 ascii_lower _
            (VObj [("toString", VNum (of_int 1))]) TypeError_to_primitive
            [] _ _ _); reflexivity.
Defined.

Lemma only_post_reaches_providers_witness :
  exists r : response,
    serve world0 cfg0 ascii_lower
      (Request "PUT" "/create-razorpay-order" []
         (VObj [("amount", VNum (of_int 500))]))
    = (Normal r, []).
Proof.
  refine (only_post_reaches_providers world0 cfg0 ascii_lower _ _).
  discriminate.
Defined.
